(** * OpenLane 2 flows: [openlane/flows/flow.py]

    A shallow embedding of the [Flow] orchestrator, of [SequentialFlow.run]
    and of the [FlowFactory] registry, with the properties of the flow
    specification stated and proved over it.

    Conventions of the embedding:
    - Python [int] is [Z]; [str] is [string]; [Optional[T]] is [option T].
    - A method of [Flow] is a function in the monad [M], which threads the
      machine state (the flow object [self], the world the steps act on and
      the log of calls made to the collaborators) and either returns a value
      or raises a Python exception. A raised exception keeps the mutations
      made before it, as in Python.
    - Collaborators that are not in this file ([rich.progress], [mkdirp],
      [open]/[write], [log]/[err]/[success], [Toolbox], [Config], [State],
      [Step]) are parameters of the development or are recorded as events
      in the log. *)

From Stdlib Require Import ZArith List String Ascii Bool Lia.
Import ListNotations.
Open Scope string_scope.
Open Scope Z_scope.

Set Implicit Arguments.

(* ================================================================== *)
(** * Python primitives used by the flow *)
(* ================================================================== *)

Module Py.

(** The character of a decimal digit [0 <= d <= 9]. *)
Definition digit_char (d : Z) : ascii := ascii_of_nat (48 + Z.to_nat d).

(** The digits of a non-negative integer, most significant first, pushed in
    front of [acc]. One digit is produced per unit of fuel. *)
Fixpoint str_digits (fuel : nat) (n : Z) (acc : string) : string :=
  match fuel with
  | O => acc
  | S fuel' =>
      let acc' := String (digit_char (n mod 10)) acc in
      if n / 10 =? 0 then acc' else str_digits fuel' (n / 10) acc'
  end.

(** Fuel that always suffices: a number has no more decimal digits than
    binary ones. *)
Definition str_fuel (n : Z) : nat := S (Z.to_nat (Z.log2 n)).

Definition str_nonneg (n : Z) : string := str_digits (str_fuel n) n "".

(** [str(n)] for a Python [int]. *)
Definition str (n : Z) : string :=
  if n <? 0 then "-" ++ str_nonneg (- n) else str_nonneg n.

(** [len(s)] *)
Definition len (s : string) : Z := Z.of_nat (String.length s).

(** [k] copies of the character ['0']. *)
Fixpoint zeros (k : nat) : string :=
  match k with
  | O => ""
  | S k' => String "0"%char (zeros k')
  end.

(** Left padding with zeros up to [width] characters; a longer string is
    left as it is. *)
Definition zfill (width : nat) (s : string) : string :=
  zeros (width - String.length s) ++ s.

(** ["%0<width>d" % n]: the sign comes first, the zeros pad the digits. *)
Definition format_0d (width : Z) (n : Z) : string :=
  if n <? 0
  then "-" ++ zfill (Z.to_nat width - 1) (str_nonneg (- n))
  else zfill (Z.to_nat width) (str_nonneg n).

(** The value of a string of decimal digits. *)
Fixpoint dec_value_from (v : Z) (s : string) : Z :=
  match s with
  | EmptyString => v
  | String c s' => dec_value_from (10 * v + (Z.of_nat (nat_of_ascii c) - 48)) s'
  end.

Definition dec_value (s : string) : Z := dec_value_from 0 s.

(** [s.startswith("/")] and [s.endswith("/")] *)
Definition starts_with_sep (s : string) : bool :=
  match s with
  | String "/"%char _ => true
  | _ => false
  end.

Fixpoint ends_with_sep (s : string) : bool :=
  match s with
  | EmptyString => false
  | String c EmptyString => Ascii.eqb c "/"%char
  | String _ s' => ends_with_sep s'
  end.

(** [posixpath.join(a, b)]: an absolute [b] replaces [a]; otherwise [b] is
    appended, after a separator unless [a] is empty or ends with one. *)
Definition path_join (a b : string) : string :=
  if starts_with_sep b then b
  else if (String.eqb a "" || ends_with_sep a)%bool then a ++ b
  else a ++ "/" ++ b.

(** [os.path.join(a, b, c)] *)
Definition path_join3 (a b c : string) : string := path_join (path_join a b) c.

(** [x or y] on an [Optional[str]]: [None] and the empty string are falsy. *)
Definition str_or (x : option string) (y : string) : string :=
  match x with
  | Some s => if String.eqb s "" then y else s
  | None => y
  end.

End Py.

(** [x or y] is also used on an [Optional[State]]; whether a [State] object
    is truthy is decided by the [State] class. *)
Class StateClass (State : Type) := {
  State_new : State;            (* [State()] *)
  State_bool : State -> bool    (* [bool(state)] *)
}.

(** [datetime.datetime.now().astimezone().strftime(fmt)] reads the clock of
    the world. *)
Class Clock (World : Type) := {
  strftime_now : string -> World -> string
}.

(** An insertion-ordered [dict] with [str] keys. *)
Module Dict.
Section Dict.
Variable V : Type.

Definition t : Type := list (string * V).

Definition empty : t := [].

(** [d[k] = v]: an existing key keeps its place and takes the new value;
    a new key goes last. *)
Fixpoint set (k : string) (v : V) (d : t) : t :=
  match d with
  | [] => [(k, v)]
  | (k', v') :: d' =>
      if String.eqb k k' then (k, v) :: d' else (k', v') :: set k v d'
  end.

(** [d.get(k)] *)
Fixpoint get (k : string) (d : t) : option V :=
  match d with
  | [] => None
  | (k', v') :: d' => if String.eqb k k' then Some v' else get k d'
  end.

(** [list(d.keys())] *)
Definition keys (d : t) : list string := map fst d.
End Dict.
End Dict.

(* ================================================================== *)
(** * Exceptions and the method monad *)
(* ================================================================== *)

(** The exception classes that occur in the flow. [MissingInputError] and
    [CalledProcessError] are the two that [SequentialFlow.run] names in an
    [except] clause; an instance of a subclass of one of them is represented
    by the constructor of that class. *)
Inductive exn : Type :=
| MissingInputError (msg : string)
| CalledProcessError (returncode : Z)
| AttributeError (msg : string)
| KeyError (msg : string)
| Exception (msg : string)
| OtherError (cls msg : string).

Inductive result (A : Type) : Type :=
| Return (a : A)
| Raise (e : exn).
Arguments Return {A} a.
Arguments Raise {A} e.

(** The exceptions that [SequentialFlow.run] catches. *)
Definition handled (e : exn) : bool :=
  match e with
  | MissingInputError _ | CalledProcessError _ => true
  | _ => false
  end.

(** A handle on a [rich.progress.Progress] display, and a [TaskID]. *)
Inductive Progress : Type := RichProgress.
Definition TaskID : Type := nat.

(** [Toolbox(tmp_dir)] *)
Record Toolbox : Type := mkToolbox { Toolbox_tmp_dir : string }.

(** A [Config] object, as far as the flow uses it: [config.dumps()]. *)
Record Config : Type := mkConfig { dumps : string }.

(** A step. [Step_start args w] is [step.start] called on the positional arguments
    [args] in the world [w]:
    it returns a new state or raises, and leaves a new world. A step type of
    [Flow.Steps] is instantiated with no argument, so that the type
    determines the instance. What a step reads besides its arguments is
    part of the world: the properties below say what [run] passes to a
    step, not what the step class, which is not in this file, may reach by
    other means. *)
Record Step (State World : Type) : Type := mkStep {
  Step_id : string;
  Step_name : string;
  Step_start : list State -> World -> result State * World
}.

Definition StepType (State World : Type) : Type := Step State World.

(** [cls()]. The constructor is taken to return: an exception of a
    constructor, which [run] would not catch, has no counterpart here. *)
Definition instantiate {State World} (cls : StepType State World)
  : Step State World := cls.

(** A subclass of [Flow]: its Python name and its class attributes. *)
Record FlowType (State World : Type) : Type := mkFlowType {
  __name__ : string;
  name : option string;
  Steps : list (StepType State World)
}.

(** A [Flow] object. *)
Record Flow (State World : Type) : Type := mkFlow {
  __class__ : FlowType State World;
  config : Config;
  steps : list (Step State World);
  design_dir : string;
  ordinal : Z;
  max_stage : Z;
  task_id : option TaskID;
  progress : option Progress;
  run_dir : option string;
  tmp_dir : option string;
  toolbox : option Toolbox
}.

(** The calls the flow makes to its collaborators, in the order made. *)
Inductive event (State : Type) : Type :=
| Mkdirp (path : string)
| WriteFile (path content : string)
| ProgressStart
| ProgressStop
| ProgressAddTask (description : string)
| UpdateTotal (task : TaskID) (total : Z)
| UpdateDescription (task : TaskID) (description : string)
| UpdateCompleted (task : TaskID) (completed : Z)
| Log (msg : string)
| Err (msg : string)
| Success (msg : string)
| StepNew (id : string)
| StepStart (id : string) (args : list State).
Arguments Mkdirp {State}.
Arguments WriteFile {State}.
Arguments ProgressStart {State}.
Arguments ProgressStop {State}.
Arguments ProgressAddTask {State}.
Arguments UpdateTotal {State}.
Arguments UpdateDescription {State}.
Arguments UpdateCompleted {State}.
Arguments Log {State}.
Arguments Err {State}.
Arguments Success {State}.
Arguments StepNew {State}.

(** The machine: the flow object, the world and the trace of events. *)
Record Machine (State World : Type) : Type := mkMachine {
  self : Flow State World;
  world : World;
  trace : list (event State)
}.

Definition M (State World A : Type) : Type :=
  Machine State World -> result A * Machine State World.

Declare Scope flow_scope.
Delimit Scope flow_scope with flow.

Section Monad.
Context {State World : Type}.

Definition ret {A} (a : A) : M State World A := fun m => (Return a, m).

Definition raise {A} (e : exn) : M State World A := fun m => (Raise e, m).

(** Sequencing: an exception of the first computation ends the whole, in
    the machine state reached when it was raised. *)
Definition bind {A B} (c : M State World A) (k : A -> M State World B) : M State World B :=
  fun m =>
    match c m with
    | (Return a, m') => k a m'
    | (Raise e, m') => (Raise e, m')
    end.

(** [try: c] with the outcome handed to the [except] clauses. *)
Definition attempt {A} (c : M State World A) : M State World (result A) :=
  fun m => let (r, m') := c m in (Return r, m').

(** Reading and assigning the attributes of [self]. *)
Definition get_self : M State World (Flow State World) := fun m => (Return (self m), m).

Definition modify_self (g : Flow State World -> Flow State World) : M State World unit :=
  fun m => (Return tt, mkMachine (g (self m)) (world m) (trace m)).

(** A call to a collaborator that returns nothing of interest. *)
Definition emit (e : event State) : M State World unit :=
  fun m => (Return tt, mkMachine (self m) (world m) (trace m ++ [e])%list).

(** Reading from the world. *)
Definition ask_world {A} (g : World -> A) : M State World A :=
  fun m => (Return (g (world m)), m).

(** [step.start(args)]: the call is recorded and the step acts on the
    world. *)
Definition call_start (step : Step State World) (args : list State)
  : M State World State :=
  fun m =>
    let (r, w') := Step_start step args (world m) in
    (r, mkMachine (self m) w' (trace m ++ [StepStart (Step_id step) args])%list).
End Monad.

Notation "x <- c ;; k" := (bind c (fun x => k))
  (at level 61, c at next level, right associativity) : flow_scope.
Notation "c ;; k" := (bind c (fun _ => k))
  (at level 61, right associativity) : flow_scope.

(** Attribute assignment, one function per attribute that is assigned. *)
Section Setters.
Context {State World : Type}.

Definition set_steps (v : list (Step State World)) (f : Flow State World) : Flow State World :=
  mkFlow (__class__ f) (config f) v (design_dir f) (ordinal f) (max_stage f)
         (task_id f) (progress f) (run_dir f) (tmp_dir f) (toolbox f).

Definition set_ordinal (v : Z) (f : Flow State World) : Flow State World :=
  mkFlow (__class__ f) (config f) (steps f) (design_dir f) v (max_stage f)
         (task_id f) (progress f) (run_dir f) (tmp_dir f) (toolbox f).

Definition set_max_stage (v : Z) (f : Flow State World) : Flow State World :=
  mkFlow (__class__ f) (config f) (steps f) (design_dir f) (ordinal f) v
         (task_id f) (progress f) (run_dir f) (tmp_dir f) (toolbox f).

Definition set_task_id (v : option TaskID) (f : Flow State World) : Flow State World :=
  mkFlow (__class__ f) (config f) (steps f) (design_dir f) (ordinal f)
         (max_stage f) v (progress f) (run_dir f) (tmp_dir f) (toolbox f).

Definition set_progress (v : option Progress) (f : Flow State World) : Flow State World :=
  mkFlow (__class__ f) (config f) (steps f) (design_dir f) (ordinal f)
         (max_stage f) (task_id f) v (run_dir f) (tmp_dir f) (toolbox f).

Definition set_run_dir (v : option string) (f : Flow State World) : Flow State World :=
  mkFlow (__class__ f) (config f) (steps f) (design_dir f) (ordinal f)
         (max_stage f) (task_id f) (progress f) v (tmp_dir f) (toolbox f).

Definition set_tmp_dir (v : option string) (f : Flow State World) : Flow State World :=
  mkFlow (__class__ f) (config f) (steps f) (design_dir f) (ordinal f)
         (max_stage f) (task_id f) (progress f) (run_dir f) v (toolbox f).

Definition set_toolbox (v : option Toolbox) (f : Flow State World) : Flow State World :=
  mkFlow (__class__ f) (config f) (steps f) (design_dir f) (ordinal f)
         (max_stage f) (task_id f) (progress f) (run_dir f) (tmp_dir f) v.
End Setters.

(* ================================================================== *)
(** * class Flow *)
(* ================================================================== *)

Section FlowMethods.
Context {State World : Type} {SC : StateClass State} {CK : Clock World}.
Open Scope flow_scope.

(** [Flow.__init__(self, config, design_dir)] on an object of class [cls]. *)
Definition Flow_init (cls : FlowType State World) (config : Config)
           (design_dir : string) : Flow State World :=
  mkFlow cls config [] design_dir 0 0 None None None None None.

(** [self.name or self.__class__.__name__] *)
Definition get_name (f : Flow State World) : string :=
  Py.str_or (name (__class__ f)) (__name__ (__class__ f)).

Definition set_max_stage_count (count : Z) : M State World unit :=
  f <- get_self ;;
  match progress f, task_id f with
  | Some _, Some t =>
      modify_self (set_max_stage count) ;;
      emit (UpdateTotal t count)
  | _, _ => ret tt
  end.

Definition start_stage (name : string) : M State World unit :=
  f <- get_self ;;
  match progress f, task_id f with
  | Some _, Some t =>
      modify_self (set_ordinal (ordinal f + 1)) ;;
      f <- get_self ;;
      emit (UpdateDescription t
              (get_name f ++ " - Stage " ++ Py.str (ordinal f) ++ " - " ++ name))
  | _, _ => ret tt
  end.

(** [self.progress.update] on an unset [progress] is an attribute lookup
    on [None]. The completed count [float(self.ordinal)] is recorded as
    the integer it converts. An unset task identifier is not a key of the
    tasks of the display. *)
Definition end_stage : M State World unit :=
  f <- get_self ;;
  match progress f with
  | None => raise (AttributeError "'NoneType' object has no attribute 'update'")
  | Some _ =>
      match task_id f with
      | None => raise (KeyError "None")
      | Some t => emit (UpdateCompleted t (ordinal f))
      end
  end.

Definition current_stage_prefix (f : Flow State World) : string :=
  let max_stage_digits := Py.len (Py.str (max_stage f)) in
  Py.format_0d max_stage_digits (ordinal f) ++ "-".

Definition dir_for_step (step : Step State World) : M State World string :=
  f <- get_self ;;
  match run_dir f with
  | None => raise (Exception "")
  | Some d => ret (Py.path_join d (current_stage_prefix f ++ Step_id step))
  end.

(** The part of [start] before the call of [run]. *)
Definition start_prologue (tag : option string) : M State World unit :=
  tag <- match tag with
         | None => ask_world (strftime_now "RUN_%Y-%m-%d_%H-%M-%S")
         | Some t => ret t
         end ;;
  f <- get_self ;;
  let run_dir := Py.path_join3 (design_dir f) "runs" tag in
  modify_self (set_run_dir (Some run_dir)) ;;
  let tmp_dir := Py.path_join run_dir "tmp" in
  modify_self (set_tmp_dir (Some tmp_dir)) ;;
  modify_self (set_toolbox (Some (mkToolbox tmp_dir))) ;;
  emit (Mkdirp run_dir) ;;
  let config_res_path := Py.path_join run_dir "resolved.json" in
  emit (WriteFile config_res_path (dumps (config f))) ;;
  modify_self (set_progress (Some RichProgress)) ;;
  emit ProgressStart ;;
  emit (ProgressAddTask (get_name f)) ;;
  modify_self (set_task_id (Some O)).

(** The part of [start] after [run] has returned. *)
Definition start_epilogue : M State World unit :=
  emit ProgressStop ;;
  modify_self (set_progress None) ;;
  modify_self (set_task_id None) ;;
  modify_self (set_tmp_dir None) ;;
  modify_self (set_toolbox None) ;;
  modify_self (set_ordinal 0) ;;
  modify_self (set_max_stage 0).

(** [Flow.start], for a given implementation of the abstract [run]. *)
Definition start_with
           (run : option State -> M State World (bool * list State))
           (with_initial_state : option State) (tag : option string)
  : M State World (bool * list State) :=
  start_prologue tag ;;
  result <- run with_initial_state ;;
  start_epilogue ;;
  ret result.

(* ================================================================ *)
(** * class SequentialFlow *)
(* ================================================================ *)

(** [with_initial_state or State()] *)
Definition state_or_new (with_initial_state : option State) : State :=
  match with_initial_state with
  | Some s => if State_bool s then s else State_new
  | None => State_new
  end.

(** The [for cls in self.Steps] loop of [run], with the rest of the body
    after it. *)
Fixpoint run_loop (Steps : list (StepType State World))
         (state_list : list State) : M State World (bool * list State) :=
  match Steps with
  | [] =>
      emit (Success "Flow complete.") ;;
      ret (true, state_list)
  | cls :: Steps' =>
      let step := instantiate cls in
      emit (StepNew (Step_id step)) ;;
      f <- get_self ;;
      modify_self (set_steps (steps f ++ [step])%list) ;;
      start_stage (Step_name step) ;;
      r <- attempt (call_start step []) ;;
      match r with
      | Raise (MissingInputError e) =>
          emit (Err ("Misconfigured flow: " ++ e)) ;;
          ret (false, state_list)
      | Raise (CalledProcessError _) =>
          emit (Err "An error has been encountered. The flow will stop.") ;;
          ret (false, state_list)
      | Raise e => raise e
      | Return new_state =>
          let state_list := (state_list ++ [new_state])%list in
          end_stage ;;
          run_loop Steps' state_list
      end
  end.

Definition run (with_initial_state : option State) : M State World (bool * list State) :=
  f <- get_self ;;
  let step_count := Z.of_nat (List.length (Steps (__class__ f))) in
  set_max_stage_count step_count ;;
  let initial_state := state_or_new with_initial_state in
  let state_list := [initial_state] in
  emit (Log "Starting…") ;;
  run_loop (Steps (__class__ f)) state_list.

(** [SequentialFlow.start]: the inherited [start] over this [run]. *)
Definition start : option State -> option string -> M State World (bool * list State) :=
  start_with run.
End FlowMethods.

(* ================================================================== *)
(** * class FlowFactory *)
(* ================================================================== *)

Module FlowFactory.
Section FlowFactory.
Context {State World : Type}.

(** The value of the class variable [_registry]. *)
Definition registry : Type := Dict.t (FlowType State World).

(** [_registry = {}] when the class is created. *)
Definition _registry : registry := Dict.empty (FlowType State World).

Definition register (flow : FlowType State World) (r : registry) : registry :=
  let name := __name__ flow in
  Dict.set name flow r.

Definition get (name : string) (r : registry) : option (FlowType State World) :=
  Dict.get name r.

(** The registry after the calls [register(flow)] for the [flows], in
    order, on a registry [r]. *)
Definition register_all (flows : list (FlowType State World)) (r : registry)
  : registry :=
  fold_left (fun r flow => register flow r) flows r.

Definition list (r : registry) : list string := Dict.keys r.
End FlowFactory.
End FlowFactory.

(* ================================================================== *)
(** * Observations used to state the properties *)
(* ================================================================== *)

Section Observations.
Context {State World : Type}.

(** What the steps of a list do when started one after the other with no
    argument, the way [SequentialFlow.run] starts them, up to the first
    one that raises: the states returned, the world left, and the
    exception of the step that raised, if one did. *)
Fixpoint executions (Steps : list (StepType State World)) (w : World)
  : list State * World * option exn :=
  match Steps with
  | [] => ([], w, None)
  | cls :: Steps' =>
      match Step_start (instantiate cls) [] w with
      | (Return s, w') =>
          let '(outs, w'', e) := executions Steps' w' in
          (s :: outs, w'', e)
      | (Raise e, w') => ([], w', Some e)
      end
  end.

Definition outputs (Steps : list (StepType State World)) (w : World)
  : list State := fst (fst (executions Steps w)).

Definition world_after (Steps : list (StepType State World)) (w : World)
  : World := snd (fst (executions Steps w)).

Definition failure (Steps : list (StepType State World)) (w : World)
  : option exn := snd (executions Steps w).

(** The step types instantiated, in order. *)
Definition instantiated (tr : list (event State)) : list string :=
  flat_map (fun e => match e with StepNew i => [i] | _ => [] end) tr.

(** The calls of [start], in order, each with its arguments. *)
Definition start_calls (tr : list (event State)) : list (string * list State) :=
  flat_map (fun e => match e with StepStart i a => [(i, a)] | _ => [] end) tr.

(** The descriptions given to the progress display, in order. *)
Definition descriptions (tr : list (event State)) : list string :=
  flat_map (fun e => match e with
                     | UpdateDescription _ d => [d]
                     | _ => []
                     end) tr.

(** The totals given to the progress display, in order. *)
Definition totals (tr : list (event State)) : list Z :=
  flat_map (fun e => match e with UpdateTotal _ c => [c] | _ => [] end) tr.

(** The description of the stages of the steps [Steps], started in this
    order after [ord] stages, for a flow called [flow_name]. *)
Fixpoint stage_descriptions (flow_name : string) (ord : Z)
         (Steps : list (StepType State World)) : list string :=
  match Steps with
  | [] => []
  | cls :: Steps' =>
      (flow_name ++ " - Stage " ++ Py.str (ord + 1) ++ " - " ++ Step_name cls)
        :: stage_descriptions flow_name (ord + 1) Steps'
  end.

(** The attributes of a flow that the stages of a run leave alone. *)
Definition same_run (f f' : Flow State World) : Prop :=
  __class__ f' = __class__ f /\ config f' = config f /\
  design_dir f' = design_dir f /\ max_stage f' = max_stage f /\
  task_id f' = task_id f /\ progress f' = progress f /\
  run_dir f' = run_dir f /\ tmp_dir f' = tmp_dir f /\
  toolbox f' = toolbox f.

(** [start] up to the return of [run]. *)
Definition start_until_run_returns {SC : StateClass State} {CK : Clock World}
           (with_initial_state : option State) (tag : option string)
  : M State World (bool * list State) :=
  (start_prologue tag ;; run with_initial_state)%flow.

(** Every run-scoped attribute is in the state [__init__] gives it. *)
Definition all_run_scoped_reset (f : Flow State World) : Prop :=
  ordinal f = 0 /\ max_stage f = 0 /\ run_dir f = None /\ tmp_dir f = None /\
  toolbox f = None /\ progress f = None /\ task_id f = None /\ steps f = [].

(** The attributes that the end of [start] assigns. *)
Definition reset_by_start (f : Flow State World) : Prop :=
  ordinal f = 0 /\ max_stage f = 0 /\ tmp_dir f = None /\
  toolbox f = None /\ progress f = None /\ task_id f = None.

End Observations.

(* ================================================================== *)
(** * What a run of the loop leaves behind *)
(* ================================================================== *)

Section LoopPost.
Context {State World : Type}.

(** The number of steps of [Steps] that get started: those that return,
    and the one that raises if one does. *)
Definition started (Steps : list (StepType State World)) (w : World) : nat :=
  (List.length (outputs Steps w)
   + match failure Steps w with Some _ => 1 | None => 0 end)%nat.

(** The result of the loop over [Steps] entered with the lineage
    [state_list] in the world [w]. *)
Definition loop_result (Steps : list (StepType State World))
           (state_list : list State) (w : World)
  : result (bool * list State) :=
  match failure Steps w with
  | None => Return (true, (state_list ++ outputs Steps w)%list)
  | Some e =>
      if handled e
      then Return (false, (state_list ++ outputs Steps w)%list)
      else Raise e
  end.

(** The machine [m'] is what the loop over [Steps] makes of [m]. *)
Definition loop_post (Steps : list (StepType State World))
           (m m' : Machine State World) : Prop :=
  let n := started Steps (world m) in
  world m' = world_after Steps (world m) /\
  ordinal (self m') = ordinal (self m) + Z.of_nat n /\
  steps (self m') = (steps (self m) ++ firstn n Steps)%list /\
  same_run (self m) (self m') /\
  instantiated (trace m')
  = (instantiated (trace m) ++ map (@Step_id _ _) (firstn n Steps))%list /\
  start_calls (trace m')
  = (start_calls (trace m)
     ++ map (fun cls => (Step_id cls, [])) (firstn n Steps))%list /\
  descriptions (trace m')
  = (descriptions (trace m)
     ++ stage_descriptions (get_name (self m)) (ordinal (self m))
                           (firstn n Steps))%list /\
  totals (trace m') = totals (trace m).
End LoopPost.

(** The machines that one turn of the loop of [run] goes through, for a
    step type [cls], when progress is tracked under the task [t]. *)
Section Turn.
Context {State World : Type}.

(** The step is instantiated and recorded, and its stage started. *)
Definition enter_stage (cls : StepType State World) (t : TaskID)
           (m : Machine State World) : Machine State World :=
  let f := set_ordinal (ordinal (self m) + 1)
             (set_steps (steps (self m) ++ [instantiate cls])%list (self m)) in
  mkMachine f (world m)
    (trace m ++ [StepNew (Step_id cls);
                 UpdateDescription t
                   (get_name f ++ " - Stage " ++ Py.str (ordinal f)
                    ++ " - " ++ Step_name cls)])%list.

(** The step has been started and has left the world [w']. *)
Definition step_started (cls : StepType State World) (w' : World)
           (m : Machine State World) : Machine State World :=
  mkMachine (self m) w' (trace m ++ [StepStart (Step_id cls) []])%list.

(** The stage is ended. *)
Definition leave_stage (t : TaskID) (m : Machine State World)
  : Machine State World :=
  mkMachine (self m) (world m)
            (trace m ++ [UpdateCompleted t (ordinal (self m))])%list.

(** The exception [e] of the step goes through the [except] clauses. *)
Definition report (e : exn) (m : Machine State World) : Machine State World :=
  match e with
  | MissingInputError msg =>
      mkMachine (self m) (world m)
                (trace m ++ [Err ("Misconfigured flow: " ++ msg)])%list
  | CalledProcessError _ =>
      mkMachine (self m) (world m)
                (trace m
                 ++ [Err "An error has been encountered. The flow will stop."])%list
  | _ => m
  end.
End Turn.

(** The machines that [start] goes through around the loop of [run]. *)
Section AroundRun.
Context {State World : Type} {CK : Clock World}.

(** The tag of the run. *)
Definition run_tag (tag : option string) (w : World) : string :=
  match tag with
  | None => strftime_now "RUN_%Y-%m-%d_%H-%M-%S" w
  | Some t => t
  end.

(** The run directory of a flow for a tag. *)
Definition run_dir_for (f : Flow State World) (tag : string) : string :=
  Py.path_join3 (design_dir f) "runs" tag.

(** [run] is about to be called. *)
Definition run_entered (tag : option string) (m : Machine State World)
  : Machine State World :=
  let f := self m in
  let rd := run_dir_for f (run_tag tag (world m)) in
  let td := Py.path_join rd "tmp" in
  mkMachine
    (mkFlow (__class__ f) (config f) (steps f) (design_dir f) (ordinal f)
            (max_stage f) (Some O) (Some RichProgress) (Some rd) (Some td)
            (Some (mkToolbox td)))
    (world m)
    (trace m ++ [Mkdirp rd;
                 WriteFile (Py.path_join rd "resolved.json") (dumps (config f));
                 ProgressStart;
                 ProgressAddTask (get_name f)])%list.

(** The loop of [run] is about to be entered, progress being tracked
    under the task [t]. *)
Definition loop_entered (t : TaskID) (m : Machine State World)
  : Machine State World :=
  let step_count := Z.of_nat (List.length (Steps (__class__ (self m)))) in
  mkMachine (set_max_stage step_count (self m)) (world m)
            (trace m ++ [UpdateTotal t step_count; Log "Starting…"])%list.

(** [run] has returned and [start] has reset the flow. *)
Definition run_left (m : Machine State World) : Machine State World :=
  let f := self m in
  mkMachine
    (mkFlow (__class__ f) (config f) (steps f) (design_dir f) 0 0 None None
            (run_dir f) None None)
    (world m)
    (trace m ++ [ProgressStop])%list.
End AroundRun.

(** The machine [m_run] is what [start], called with [tag] on the machine
    [m], has reached when [run] returns or raises. *)
Record run_post {State World : Type} {CK : Clock World}
       (tag : option string) (m m_run : Machine State World) : Prop := {
  rp_world :
    world m_run = world_after (Steps (__class__ (self m))) (world m);
  rp_ordinal :
    ordinal (self m_run)
    = ordinal (self m)
      + Z.of_nat (started (Steps (__class__ (self m))) (world m));
  rp_steps :
    steps (self m_run)
    = (steps (self m)
       ++ firstn (started (Steps (__class__ (self m))) (world m))
                 (Steps (__class__ (self m))))%list;
  rp_max_stage :
    max_stage (self m_run)
    = Z.of_nat (List.length (Steps (__class__ (self m))));
  rp_progress : progress (self m_run) = Some RichProgress;
  rp_task_id : task_id (self m_run) = Some O;
  rp_run_dir :
    run_dir (self m_run)
    = Some (run_dir_for (self m) (run_tag tag (world m)));
  rp_tmp_dir :
    tmp_dir (self m_run)
    = Some (Py.path_join (run_dir_for (self m) (run_tag tag (world m))) "tmp");
  rp_toolbox :
    toolbox (self m_run)
    = Some (mkToolbox
              (Py.path_join (run_dir_for (self m) (run_tag tag (world m))) "tmp"));
  rp_class : __class__ (self m_run) = __class__ (self m);
  rp_config : config (self m_run) = config (self m);
  rp_design_dir : design_dir (self m_run) = design_dir (self m);
  rp_instantiated :
    instantiated (trace m_run)
    = (instantiated (trace m)
       ++ map (@Step_id _ _)
              (firstn (started (Steps (__class__ (self m))) (world m))
                      (Steps (__class__ (self m)))))%list;
  rp_start_calls :
    start_calls (trace m_run)
    = (start_calls (trace m)
       ++ map (fun cls => (Step_id cls, []))
              (firstn (started (Steps (__class__ (self m))) (world m))
                      (Steps (__class__ (self m)))))%list;
  rp_descriptions :
    descriptions (trace m_run)
    = (descriptions (trace m)
       ++ stage_descriptions (get_name (self m)) (ordinal (self m))
            (firstn (started (Steps (__class__ (self m))) (world m))
                    (Steps (__class__ (self m)))))%list;
  rp_totals :
    totals (trace m_run)
    = (totals (trace m)
       ++ [Z.of_nat (List.length (Steps (__class__ (self m))))])%list
}.

(** Further observations of a trace. *)
Section MoreObservations.
Context {State World : Type}.

(** The completed counts given to the progress display, in order. *)
Definition completions (tr : list (event State)) : list Z :=
  flat_map (fun e => match e with UpdateCompleted _ c => [c] | _ => [] end) tr.

(** The number of calls of [progress.stop()]. *)
Definition stops (tr : list (event State)) : nat :=
  List.length (filter (fun e => match e with ProgressStop => true | _ => false end) tr).

(** The messages given to [err] and to [success], in order. *)
Definition errors (tr : list (event State)) : list string :=
  flat_map (fun e => match e with Err s => [s] | _ => [] end) tr.

Definition successes (tr : list (event State)) : list string :=
  flat_map (fun e => match e with Success s => [s] | _ => [] end) tr.

(** The events that the loop of [run] gives rise to. *)
Definition loop_event (e : event State) : bool :=
  match e with
  | StepNew _ | UpdateDescription _ _ | StepStart _ _ | UpdateCompleted _ _
  | Err _ | Success _ => true
  | _ => false
  end.

(** The ordinals [ord + 1], ..., [ord + n]. *)
Definition stage_numbers (ord : Z) (n : nat) : list Z :=
  map (fun i => ord + Z.of_nat i) (seq 1 n).

(** The flow registered last under [name] among [flows]. *)
Definition last_registered (name : string)
           (flows : list (FlowType State World))
  : option (FlowType State World) :=
  find (fun T => String.eqb name (__name__ T)) (rev flows).
End MoreObservations.

(* ================================================================== *)
(** * A concrete flow *)
(* ================================================================== *)

(** States are numbers, the world counts the steps run. [Synthesis] and
    [Floorplan] succeed; [Placement] lacks an input, [Routing] runs a tool
    that fails, [Broken] raises an error of another kind. [Echo] returns the
    state it is given, when it is given one. *)
Module Sample.

#[export] Instance nat_state : StateClass nat :=
  {| State_new := 0%nat; State_bool := fun _ => true |}.

#[export] Instance nat_clock : Clock nat :=
  {| strftime_now := fun _ _ => "RUN_2023-01-01_00-00-00" |}.

Definition Synthesis : StepType nat nat :=
  mkStep "Yosys.Synthesis" "Synthesis"
         (fun _ w => (Return (10 + w)%nat, S w)).

Definition Floorplan : StepType nat nat :=
  mkStep "OpenROAD.Floorplan" "Floorplan"
         (fun _ w => (Return (20 + w)%nat, S w)).

Definition Placement : StepType nat nat :=
  mkStep "OpenROAD.Placement" "Placement"
         (fun _ w => (Raise (MissingInputError "def"), S w)).

Definition Routing : StepType nat nat :=
  mkStep "OpenROAD.Routing" "Routing"
         (fun _ w => (Raise (CalledProcessError 1), S w)).

Definition Broken : StepType nat nat :=
  mkStep "Broken" "Broken"
         (fun _ w => (Raise (OtherError "ValueError" "bad"), S w)).

Definition Echo : StepType nat nat :=
  mkStep "Echo" "Echo"
         (fun args w => (match args with
                         | s :: _ => Return s
                         | [] => Return 99%nat
                         end, S w)).

Definition flow_of (Steps : list (StepType nat nat)) : Flow nat nat :=
  Flow_init (mkFlowType "Basic" None Steps) (mkConfig "{}") "/design".

Definition machine_of (Steps : list (StepType nat nat)) : Machine nat nat :=
  mkMachine (flow_of Steps) 0%nat [].

Definition Basic : FlowType nat nat :=
  mkFlowType "Basic" None [Synthesis; Floorplan].

Definition Basic' : FlowType nat nat :=
  mkFlowType "Basic" (Some "Other") [Synthesis].

Definition Extended : FlowType nat nat :=
  mkFlowType "Extended" None [Synthesis; Floorplan; Echo].

End Sample.

(* ================================================================== *)
(** * Properties of the Python primitives *)
(* ================================================================== *)

Module PyFacts.
Import Py.

Lemma append_assoc (a b c : string) : (a ++ b) ++ c = a ++ (b ++ c).
Proof.
  induction a as [|x a IH]; simpl; [reflexivity | now rewrite IH].
Qed.

Lemma length_append (a b : string) :
  String.length (a ++ b) = (String.length a + String.length b)%nat.
Proof.
  induction a as [|x a IH]; simpl; [reflexivity | now rewrite IH].
Qed.

Lemma length_zeros (k : nat) : String.length (zeros k) = k.
Proof.
  induction k as [|k IH]; simpl; [reflexivity | now rewrite IH].
Qed.

Lemma length_zfill (w : nat) (s : string) :
  String.length (zfill w s) = Nat.max w (String.length s).
Proof.
  unfold zfill. rewrite length_append, length_zeros. lia.
Qed.

Lemma digit_char_value (d : Z) :
  0 <= d < 10 -> Z.of_nat (nat_of_ascii (digit_char d)) - 48 = d.
Proof.
  intros Hd. unfold digit_char.
  rewrite nat_ascii_embedding by lia. lia.
Qed.

Lemma dec_value_from_snoc (s : string) (c : ascii) (v : Z) :
  dec_value_from v (s ++ String c "")
  = 10 * dec_value_from v s + (Z.of_nat (nat_of_ascii c) - 48).
Proof.
  revert v. induction s as [|x s IH]; intros v; simpl.
  - reflexivity.
  - apply IH.
Qed.

(** The digits produced with enough fuel: they come in front of the
    accumulator, their value is the number, and their count [k] is the one
    with [10^(k-1) <= n < 10^k]. *)
Lemma str_digits_spec (fuel : nat) :
  forall (n : Z) (acc : string),
    (1 <= fuel)%nat ->
    0 <= n < 2 ^ Z.of_nat fuel ->
    exists ds : string,
      str_digits fuel n acc = ds ++ acc /\
      dec_value ds = n /\
      (1 <= String.length ds)%nat /\
      n < 10 ^ Z.of_nat (String.length ds) /\
      (0 < n -> 10 ^ (Z.of_nat (String.length ds) - 1) <= n).
Proof.
  induction fuel as [|fuel IH]; intros n acc Hfuel Hn.
  - lia.
  - assert (Hmod : 0 <= n mod 10 < 10) by (apply Z.mod_pos_bound; lia).
    assert (Hdiv : n = 10 * (n / 10) + n mod 10) by (apply Z.div_mod; lia).
    assert (Hq : 0 <= n / 10) by (apply Z.div_pos; lia).
    simpl str_digits. destruct (n / 10 =? 0) eqn:E.
    + apply Z.eqb_eq in E.
      exists (String (digit_char (n mod 10)) ""). simpl String.length.
      repeat split.
      * unfold dec_value. cbn [dec_value_from]. rewrite digit_char_value by lia. lia.
      * lia.
      * change (10 ^ Z.of_nat 1) with 10. lia.
      * intros Hpos. change (10 ^ (Z.of_nat 1 - 1)) with 1. lia.
    + apply Z.eqb_neq in E.
      assert (Hpow : 2 ^ Z.of_nat (S fuel) = 2 * 2 ^ Z.of_nat fuel).
      { rewrite Nat2Z.inj_succ, Z.pow_succ_r by lia. reflexivity. }
      destruct (IH (n / 10) (String (digit_char (n mod 10)) acc))
        as (ds & Heq & Hval & Hlen & Hub & Hlb).
      { destruct fuel; [|lia]. change (2 ^ Z.of_nat 1) with 2 in Hn. lia. }
      { lia. }
      exists (ds ++ String (digit_char (n mod 10)) "").
      rewrite length_append. simpl String.length.
      replace (Z.of_nat (String.length ds + 1)) with (Z.succ (Z.of_nat (String.length ds))) by lia.
      rewrite Z.pow_succ_r by lia.
      replace (Z.succ (Z.of_nat (String.length ds)) - 1)
        with (Z.succ (Z.of_nat (String.length ds) - 1)) by lia.
      rewrite Z.pow_succ_r by lia.
      repeat split.
      * rewrite Heq, append_assoc. reflexivity.
      * unfold dec_value in *. rewrite dec_value_from_snoc, Hval.
        rewrite digit_char_value by lia. lia.
      * lia.
      * lia.
      * intros _. assert (0 < n / 10) by lia. specialize (Hlb H). lia.
Qed.

Lemma str_fuel_enough (n : Z) : 0 <= n -> 0 <= n < 2 ^ Z.of_nat (str_fuel n).
Proof.
  intros Hn. split; [assumption|]. unfold str_fuel.
  rewrite Nat2Z.inj_succ, Z2Nat.id by apply Z.log2_nonneg.
  destruct (Z.eq_dec n 0) as [->|Hne].
  - reflexivity.
  - apply Z.log2_spec. lia.
Qed.

Lemma str_nonneg_spec (n : Z) :
  0 <= n ->
  dec_value (str_nonneg n) = n /\
  (1 <= String.length (str_nonneg n))%nat /\
  n < 10 ^ Z.of_nat (String.length (str_nonneg n)) /\
  (0 < n -> 10 ^ (Z.of_nat (String.length (str_nonneg n)) - 1) <= n).
Proof.
  intros Hn. unfold str_nonneg.
  destruct (@str_digits_spec (str_fuel n) n "") as (ds & Heq & H).
  { unfold str_fuel. lia. }
  { apply str_fuel_enough, Hn. }
  rewrite Heq.
  assert (Hnil : forall s, s ++ "" = s).
  { induction s as [|x s IH]; simpl; [reflexivity | now rewrite IH]. }
  rewrite Hnil. exact H.
Qed.

Lemma str_of_nonneg (n : Z) : 0 <= n -> str n = str_nonneg n.
Proof.
  intros Hn. unfold str. destruct (n <? 0) eqn:E; [|reflexivity].
  apply Z.ltb_lt in E. lia.
Qed.

(** A larger number has no fewer digits. *)
Lemma str_length_mono (a b : Z) :
  0 <= a <= b -> (String.length (str a) <= String.length (str b))%nat.
Proof.
  intros [Ha Hab]. rewrite !str_of_nonneg by lia.
  destruct (str_nonneg_spec Ha) as (_ & _ & _ & Hlb).
  destruct (str_nonneg_spec (n := b)) as (_ & Hlen & Hub & _); [lia|].
  destruct (Z.eq_dec a 0) as [->|Hne].
  - change (str_nonneg 0) with "0". simpl. lia.
  - assert (Hlt : 10 ^ (Z.of_nat (String.length (str_nonneg a)) - 1)
                  < 10 ^ Z.of_nat (String.length (str_nonneg b))).
    { specialize (Hlb ltac:(lia)). lia. }
    apply Z.pow_lt_mono_r_iff in Hlt; lia.
Qed.

Lemma format_0d_nonneg (width n : Z) :
  0 <= n -> format_0d width n = zfill (Z.to_nat width) (str n).
Proof.
  intros Hn. rewrite str_of_nonneg by assumption. unfold format_0d.
  destruct (n <? 0) eqn:E; [|reflexivity].
  apply Z.ltb_lt in E. lia.
Qed.

End PyFacts.

(* ================================================================== *)
(** * The loop of [SequentialFlow.run] *)
(* ================================================================== *)

Arguments Py.str : simpl never.
Arguments Py.format_0d : simpl never.
Arguments Py.path_join : simpl never.
Arguments Py.path_join3 : simpl never.
Arguments String.append : simpl never.
Arguments instantiated : simpl never.
Arguments start_calls : simpl never.
Arguments descriptions : simpl never.
Arguments totals : simpl never.

Local Open Scope list_scope.

(** The eight parts of [loop_post], one goal each. *)
Ltac split_post :=
  split; [|split; [|split; [|split; [|split; [|split; [|split]]]]]].

Section FlowFacts.
Context {State World : Type} {SC : StateClass State} {CK : Clock World}.

Lemma instantiated_app (a b : list (event State)) :
  instantiated (a ++ b) = instantiated a ++ instantiated b.
Proof. apply flat_map_app. Qed.

Lemma start_calls_app (a b : list (event State)) :
  start_calls (a ++ b) = start_calls a ++ start_calls b.
Proof. apply flat_map_app. Qed.

Lemma descriptions_app (a b : list (event State)) :
  descriptions (a ++ b) = descriptions a ++ descriptions b.
Proof. apply flat_map_app. Qed.

Lemma totals_app (a b : list (event State)) :
  totals (a ++ b) = totals a ++ totals b.
Proof. apply flat_map_app. Qed.

(** One turn of the loop, when progress is tracked. *)
Lemma run_loop_cons (cls : StepType State World) Steps state_list
      (m : Machine State World) p t :
  progress (self m) = Some p ->
  task_id (self m) = Some t ->
  run_loop (cls :: Steps) state_list m
  = match Step_start cls [] (world m) with
    | (Return s, w') =>
        run_loop Steps (state_list ++ [s])
                 (leave_stage t (step_started cls w' (enter_stage cls t m)))
    | (Raise e, w') =>
        (if handled e then Return (false, state_list) else Raise e,
         report e (step_started cls w' (enter_stage cls t m)))
    end.
Proof.
  destruct m as [f w tr].
  destruct f as [c cf st dd ord ms ti pr rd td tb]. cbn. intros -> ->.
  unfold bind, emit, get_self, modify_self, start_stage,
    attempt, call_start, end_stage, ret, raise, instantiate,
    leave_stage, step_started, enter_stage. cbn.
  destruct (Step_start cls [] w) as [[s|e] w'].
  - cbn. rewrite <- !app_assoc. reflexivity.
  - destruct e; cbn; rewrite <- ?app_assoc; reflexivity.
Qed.

Lemma run_loop_nil state_list (m : Machine State World) :
  run_loop [] state_list m
  = (Return (true, state_list),
     mkMachine (self m) (world m) (trace m ++ [Success "Flow complete."])).
Proof. reflexivity. Qed.

Lemma run_loop_correct (Steps : list (StepType State World)) :
  forall (state_list : list State) (m : Machine State World) p t,
    progress (self m) = Some p ->
    task_id (self m) = Some t ->
    exists m',
      run_loop Steps state_list m = (loop_result Steps state_list (world m), m')
      /\ loop_post Steps m m'.
Proof.
  induction Steps as [|cls Steps IH]; intros sl m p t Hp Ht.
  - rewrite run_loop_nil. eexists. split.
    + unfold loop_result, failure, outputs. cbn. rewrite app_nil_r. reflexivity.
    + unfold loop_post, started, failure, outputs, world_after, same_run. cbn.
      rewrite !app_nil_r, Z.add_0_r, instantiated_app, start_calls_app,
        descriptions_app, totals_app. cbn. rewrite !app_nil_r.
      split_post; try reflexivity. tauto.
  - rewrite (run_loop_cons _ _ _ _ Hp Ht).
    unfold loop_result, loop_post, started, failure, outputs, world_after.
    cbn [executions]. unfold instantiate.
    destruct (Step_start cls [] (world m)) as [[s|e] w'] eqn:E.
    + destruct (IH (sl ++ [s])
                   (leave_stage t (step_started cls w' (enter_stage cls t m))) p t)
        as (m' & Hrun & Hpost); [exact Hp | exact Ht |].
      exists m'. split.
      * rewrite Hrun. unfold loop_result, failure, outputs.
        cbn [world leave_stage step_started].
        destruct (executions Steps w') as [[outs w''] oe]. cbn.
        rewrite <- !app_assoc. reflexivity.
      * unfold loop_post, started, failure, outputs, world_after in Hpost.
        cbn [world self trace leave_stage step_started enter_stage] in Hpost.
        destruct (executions Steps w') as [[outs w''] oe]. cbn [fst snd] in *.
        destruct Hpost as (Hw & Ho & Hs & Hsame & Hi & Hc & Hd & Ht').
        cbn [List.length Nat.add firstn map stage_descriptions].
        split_post.
        -- exact Hw.
        -- rewrite Ho. cbn. lia.
        -- rewrite Hs. cbn. rewrite <- app_assoc. reflexivity.
        -- unfold same_run in *. cbn in Hsame |- *. tauto.
        -- rewrite Hi. rewrite !instantiated_app. cbn. rewrite !app_nil_r, <- app_assoc. reflexivity.
        -- rewrite Hc. rewrite !start_calls_app. cbn. rewrite !app_nil_r, <- app_assoc. reflexivity.
        -- rewrite Hd. rewrite !descriptions_app. cbn. rewrite !app_nil_r, <- app_assoc. reflexivity.
        -- rewrite Ht'. rewrite !totals_app. cbn. rewrite !app_nil_r. reflexivity.
    + eexists. split.
      * cbn. rewrite app_nil_r. reflexivity.
      * cbn [fst snd List.length Nat.add firstn map stage_descriptions].
        assert (Hrep : self (report e (step_started cls w' (enter_stage cls t m)))
                       = self (enter_stage cls t m)
                       /\ world (report e (step_started cls w' (enter_stage cls t m))) = w'
                       /\ exists errs, trace (report e (step_started cls w' (enter_stage cls t m)))
                                       = trace (step_started cls w' (enter_stage cls t m)) ++ errs
                                       /\ instantiated errs = [] /\ start_calls errs = []
                                       /\ descriptions errs = [] /\ totals errs = []).
        { destruct e; cbn; repeat split; try (eexists; split; [reflexivity | repeat split]);
            try (exists []; rewrite app_nil_r; repeat split). }
        destruct Hrep as (Hself & Hworld & errs & Htr & Hi & Hc & Hd & Ht').
        rewrite Hself, Hworld, Htr. cbn [trace step_started enter_stage].
        rewrite !instantiated_app, !start_calls_app, !descriptions_app, !totals_app.
        rewrite Hi, Hc, Hd, Ht'.
        unfold instantiated, start_calls, descriptions, totals, get_name.
        cbn. rewrite !app_nil_r.
        split_post; try reflexivity.
        unfold same_run; cbn; tauto.
Qed.
End FlowFacts.

(* ================================================================== *)
(** * [Flow.start] around [SequentialFlow.run] *)
(* ================================================================== *)

Section StartFacts.
Context {State World : Type} {SC : StateClass State} {CK : Clock World}.

Lemma start_prologue_eq tag (m : Machine State World) :
  start_prologue tag m = (Return tt, run_entered tag m).
Proof.
  destruct m as [f w tr]. destruct tag as [tg|];
    unfold start_prologue, run_entered, bind, ask_world, ret, get_self,
      modify_self, emit; cbn; rewrite <- !app_assoc; reflexivity.
Qed.

Lemma start_epilogue_eq (m : Machine State World) :
  start_epilogue m = (Return tt, run_left m).
Proof. reflexivity. Qed.

Lemma run_eq w (m : Machine State World) p t :
  progress (self m) = Some p ->
  task_id (self m) = Some t ->
  run w m
  = run_loop (Steps (__class__ (self m))) [state_or_new w] (loop_entered t m).
Proof.
  destruct m as [f w0 tr].
  destruct f as [c cf st dd ord ms ti pr rd td tb]. cbn. intros -> ->.
  unfold run, set_max_stage_count, loop_entered, bind, get_self, modify_self,
    emit, ret. cbn. rewrite <- !app_assoc. reflexivity.
Qed.

Lemma start_until_run_returns_eq w tag (m : Machine State World) :
  start_until_run_returns w tag m
  = run_loop (Steps (__class__ (self m))) [state_or_new w]
             (loop_entered O (run_entered tag m)).
Proof.
  unfold start_until_run_returns, bind. rewrite start_prologue_eq.
  rewrite (run_eq w (run_entered tag m) (p := RichProgress) (t := O));
    reflexivity.
Qed.

Lemma start_eq w tag (m : Machine State World) :
  start w tag m
  = match start_until_run_returns w tag m with
    | (Return r, m') => (Return r, run_left m')
    | (Raise e, m') => (Raise e, m')
    end.
Proof.
  unfold start, start_with, start_until_run_returns, bind.
  rewrite start_prologue_eq.
  destruct (run w (run_entered tag m)) as [[r|e] m']; reflexivity.
Qed.

(** What a call of [start] does, in terms of what its steps do. *)
Lemma start_correct w tag (m : Machine State World) :
  exists m_run,
    start_until_run_returns w tag m
    = (loop_result (Steps (__class__ (self m))) [state_or_new w] (world m), m_run)
    /\ run_post tag m m_run
    /\ start w tag m
       = (loop_result (Steps (__class__ (self m))) [state_or_new w] (world m),
          match loop_result (Steps (__class__ (self m))) [state_or_new w] (world m) with
          | Return _ => run_left m_run
          | Raise _ => m_run
          end).
Proof.
  destruct (run_loop_correct (Steps (__class__ (self m))) [state_or_new w]
              (loop_entered O (run_entered tag m)) (p := RichProgress) (t := O))
    as (m_run & Hrun & Hpost); [reflexivity | reflexivity |].
  exists m_run. rewrite start_eq, start_until_run_returns_eq.
  change (world (loop_entered O (run_entered tag m))) with (world m) in Hrun.
  change (__class__ (self (loop_entered O (run_entered tag m))))
    with (__class__ (self m)) in *.
  rewrite Hrun. split; [reflexivity|]. split.
  - destruct Hpost as (Hw & Ho & Hs & Hsame & Hi & Hc & Hd & Ht).
    destruct Hsame as (S1 & S2 & S3 & S4 & S5 & S6 & S7 & S8 & S9).
    destruct m as [f w0 tr].
    destruct f as [c cf st dd ord ms ti pr rd td tb].
    unfold loop_entered, run_entered in *. cbn in *.
    rewrite !instantiated_app in Hi. rewrite !start_calls_app in Hc.
    rewrite !descriptions_app in Hd. rewrite !totals_app in Ht.
    unfold instantiated, start_calls, descriptions, totals in *. cbn in *.
    rewrite !app_nil_r in *.
    constructor; cbn; unfold instantiated, start_calls, descriptions, totals;
      try assumption; try (symmetry; assumption).
  - destruct (loop_result _ _ _); reflexivity.
Qed.
End StartFacts.

(* ================================================================== *)
(** * What the steps of a list do *)
(* ================================================================== *)

Section ExecutionFacts.
Context {State World : Type}.

Lemma all_succeed_outputs (Steps : list (StepType State World)) :
  forall w, failure Steps w = None ->
            List.length (outputs Steps w) = List.length Steps.
Proof.
  unfold failure, outputs.
  induction Steps as [|cls Steps IH]; intros w; cbn; [reflexivity|].
  unfold instantiate. destruct (Step_start cls [] w) as [[s|e] w'].
  - specialize (IH w'). destruct (executions Steps w') as [[outs w''] oe].
    cbn in *. intros H. now rewrite IH.
  - discriminate.
Qed.


(** A list whose first steps succeed and whose next step raises. *)
Lemma executions_until_failure (pre : list (StepType State World)) cls post e w2 :
  forall w,
    failure pre w = None ->
    Step_start cls [] (world_after pre w) = (Raise e, w2) ->
    executions (pre ++ cls :: post) w = (outputs pre w, w2, Some e).
Proof.
  unfold failure, outputs, world_after.
  induction pre as [|c pre IH]; intros w; cbn; unfold instantiate.
  - intros _ ->. reflexivity.
  - destruct (Step_start c [] w) as [[s|e'] w'].
    + specialize (IH w'). destruct (executions pre w') as [[outs w''] oe].
      cbn in *. intros H1 H2. rewrite (IH H1 H2). reflexivity.
    + discriminate.
Qed.

(** A failure is the exception of one step, raised after the steps
    before it have succeeded. *)
Lemma failure_inv (Steps : list (StepType State World)) :
  forall w e,
    failure Steps w = Some e ->
    exists pre cls post w2,
      Steps = pre ++ cls :: post /\
      failure pre w = None /\
      Step_start cls [] (world_after pre w) = (Raise e, w2).
Proof.
  unfold failure, world_after.
  induction Steps as [|c Steps IH]; intros w e; cbn; [discriminate|].
  unfold instantiate. destruct (Step_start c [] w) as [[s|e'] w'] eqn:E.
  - specialize (IH w' e). destruct (executions Steps w') as [[outs w''] oe] eqn:E'.
    cbn in *. intros H. destruct (IH H) as (pre & cls & post & w2 & -> & Hp & Hs).
    exists (c :: pre), cls, post, w2. cbn. unfold instantiate. rewrite E.
    destruct (executions pre w') as [[outs' w3] oe']. cbn in *. auto.
  - cbn. intros [= ->]. exists [], c, Steps, w'. cbn. auto.
Qed.

Lemma firstn_length_app (A : Type) (a b : list A) :
  firstn (List.length a) (a ++ b) = a.
Proof.
  induction a as [|x a IH]; cbn; [now destruct b | now rewrite IH].
Qed.
End ExecutionFacts.

(* ================================================================== *)
(** * Properties of [SequentialFlow] *)
(* ================================================================== *)

Section SequentialFlowProperties.
Context {State World : Type} {SC : StateClass State} {CK : Clock World}.


(** C2. When the k-th declared step raises one of the two exceptions that
  [run] catches, the k-1 steps before it having succeeded, [start] returns
  [(False, lineage)] where the lineage is the initial state followed by the
  k-1 outputs, so of length k; the step types instantiated and started are
  the first k, and no later one. *)
Theorem sequential_flow_handled_failure
      (m : Machine State World) (w : option State) (tag : option string)
      (pre post : list (StepType State World)) (cls : StepType State World)
      (e : exn) (w2 : World) :
Steps (__class__ (self m)) = pre ++ cls :: post ->
failure pre (world m) = None ->
Step_start (instantiate cls) [] (world_after pre (world m)) = (Raise e, w2) ->
handled e = true ->
exists lineage m_end,
  start w tag m = (Return (false, lineage), m_end) /\
  lineage = state_or_new w :: outputs pre (world m) /\
  List.length lineage = (List.length pre + 1)%nat /\
  instantiated (trace m_end)
  = instantiated (trace m) ++ map (@Step_id _ _) (pre ++ [cls]) /\
  start_calls (trace m_end)
  = start_calls (trace m) ++ map (fun c => (Step_id c, [])) (pre ++ [cls]) /\
  steps (self m_end) = steps (self m) ++ pre ++ [cls].
Proof.
intros HSteps Hpre Hcls He.
destruct (start_correct w tag m) as (m_run & _ & Hpost & Hstart).
destruct Hpost. unfold loop_result, started, failure, outputs in *.
rewrite HSteps in *.
pose proof (executions_until_failure pre cls post (world m) Hpre Hcls) as Hex.
unfold StepType in *. rewrite Hex in *.
cbn [fst snd] in *. rewrite He in Hstart.
fold (outputs pre (world m)) in *.
rewrite (all_succeed_outputs _ _ Hpre) in *.
assert (Hfirst : firstn (List.length pre + 1) (pre ++ cls :: post) = pre ++ [cls]).
{ replace (List.length pre + 1)%nat with (List.length (pre ++ [cls]))
    by (rewrite length_app; reflexivity).
  replace (pre ++ cls :: post) with ((pre ++ [cls]) ++ post)
    by (rewrite <- app_assoc; reflexivity).
  apply firstn_length_app. }
unfold StepType in *. rewrite Hfirst in *.
exists (state_or_new w :: outputs pre (world m)), (run_left m_run).
split; [exact Hstart|]. split; [reflexivity|]. split.
{ cbn [List.length]. pose proof (all_succeed_outputs _ _ Hpre) as Hlen.
  unfold StepType in *. lia. }
cbn [run_left trace self steps].
rewrite instantiated_app, start_calls_app. cbn. rewrite !app_nil_r.
repeat split; assumption.
Qed.

(** C3. An exception of a step that is not one of the two that [run]
  catches comes out of [start] as it was raised; and [start] returns
  [(False, lineage)] only when a step has raised [MissingInputError] or
  [CalledProcessError]. *)
Theorem sequential_flow_other_exceptions_propagate
      (m : Machine State World) (w : option State) (tag : option string) :
(forall pre cls post e w2,
    Steps (__class__ (self m)) = pre ++ cls :: post ->
    failure pre (world m) = None ->
    Step_start (instantiate cls) [] (world_after pre (world m)) = (Raise e, w2) ->
    handled e = false ->
    fst (start w tag m) = Raise e) /\
(forall lineage,
    fst (start w tag m) = Return (false, lineage) ->
    exists pre cls post e w2,
      Steps (__class__ (self m)) = pre ++ cls :: post /\
      failure pre (world m) = None /\
      Step_start (instantiate cls) [] (world_after pre (world m)) = (Raise e, w2) /\
      ((exists msg, e = MissingInputError msg) \/
       (exists returncode, e = CalledProcessError returncode))).
Proof.
destruct (start_correct w tag m) as (m_run & _ & _ & Hstart).
rewrite Hstart. cbn [fst]. unfold loop_result. split.
- intros pre cls post e w2 HSteps Hpre Hcls He.
  unfold failure, outputs. rewrite HSteps.
  pose proof (executions_until_failure pre cls post (world m) Hpre Hcls) as Hex.
  unfold StepType in *. rewrite Hex.
  cbn. rewrite He. reflexivity.
- intros lineage.
  destruct (failure (Steps (__class__ (self m))) (world m)) as [e|] eqn:Hf;
    [|discriminate].
  destruct (failure_inv _ _ Hf) as (pre & cls & post & w2 & HSteps & Hpre & Hcls).
  intros Hres. exists pre, cls, post, e, w2.
  repeat split; try assumption.
  destruct e; cbn in Hres; try discriminate; eauto.
Qed.


(** C5, as the code has it. When [start] returns, the ordinal, the expected
  stage count, the scratch directory, the toolbox, the progress display
  and its task are back to what [__init__] sets; the run directory stays
  that of the run, and the record of steps holds the steps of this run
  after those it held before. *)
Theorem start_resets_run_fields
      (m m_end : Machine State World) (w : option State) (tag : option string)
      (r : bool * list State) :
let declared := Steps (__class__ (self m)) in
start w tag m = (Return r, m_end) ->
reset_by_start (self m_end) /\
run_dir (self m_end) = Some (run_dir_for (self m) (run_tag tag (world m))) /\
steps (self m_end)
= steps (self m) ++ firstn (started declared (world m)) declared.
Proof.
intros declared. subst declared.
destruct (start_correct w tag m) as (m_run & _ & Hpost & Hstart).
rewrite Hstart. destruct Hpost.
destruct (loop_result _ _ _); [|discriminate].
intros [= _ <-]. cbn. unfold reset_by_start. cbn. auto 10.
Qed.

(** C8, as the code has it. [dir_for_step] returns
  [<run_dir>/<current_stage_prefix()><step.id>] and raises a plain
  [Exception], which [run] does not catch, exactly when [run_dir] is unset.
  It is unset on a new flow; it is set once [start] has been entered and
  stays set after [start] has returned. *)
Theorem dir_for_step_spec (m : Machine State World) (step : Step State World) :
(forall d,
    run_dir (self m) = Some d ->
    dir_for_step step m
    = (Return (Py.path_join d (current_stage_prefix (self m) ++ Step_id step)%string),
       m)) /\
(run_dir (self m) = None -> dir_for_step step m = (Raise (Exception ""), m)) /\
((exists e, fst (dir_for_step step m) = Raise e) <-> run_dir (self m) = None) /\
handled (Exception "") = false /\
(forall cls cfg dd, run_dir (Flow_init cls cfg dd : Flow State World) = None) /\
(forall w tag, run_dir (self (snd (start w tag m))) <> None).
Proof.
unfold dir_for_step, bind, get_self, ret, raise.
destruct (run_dir (self m)) as [d|] eqn:Hrd; cbn.
- repeat split; try discriminate; try congruence.
  + intros [e He]. discriminate.
  + intros w tag. destruct (start_correct w tag m) as (m_run & _ & Hpost & Hstart).
    rewrite Hstart. destruct Hpost. destruct (loop_result _ _ _); cbn; congruence.
- repeat split; try discriminate; try congruence.
  + eauto.
  + intros w tag. destruct (start_correct w tag m) as (m_run & _ & Hpost & Hstart).
    rewrite Hstart. destruct Hpost. destruct (loop_result _ _ _); cbn; congruence.
Qed.

(** C9. With no declared step type, [start] starts no step, sets the
  expected stage count to 0, leaves the ordinal at 0 and returns
  [(True, [initial_state])], where the initial state is the one supplied,
  or a new [State] when none is. *)
Theorem sequential_flow_no_steps
      (m : Machine State World) (w : option State) (tag : option string) :
Steps (__class__ (self m)) = [] ->
ordinal (self m) = 0 ->
exists m_run m_end,
  start_until_run_returns w tag m = (Return (true, [state_or_new w]), m_run) /\
  start w tag m = (Return (true, [state_or_new w]), m_end) /\
  max_stage (self m_run) = 0 /\
  totals (trace m_run) = totals (trace m) ++ [0] /\
  ordinal (self m_run) = 0 /\
  start_calls (trace m_end) = start_calls (trace m) /\
  instantiated (trace m_end) = instantiated (trace m) /\
  steps (self m_end) = steps (self m) /\
  state_or_new None = State_new /\
  (forall s, State_bool s = true -> state_or_new (Some s) = s).
Proof.
intros HSteps Hord.
destruct (start_correct w tag m) as (m_run & Hrun & Hpost & Hstart).
destruct Hpost. unfold loop_result, started, failure, outputs in *.
rewrite HSteps in *. cbn in *. rewrite ?app_nil_r in *.
exists m_run, (run_left m_run). cbn [run_left trace self steps].
rewrite instantiated_app, start_calls_app. cbn. rewrite !app_nil_r.
repeat split; try assumption; try lia.
intros s Hs. rewrite Hs. reflexivity.
Qed.

(** C10. With no progress display, [end_stage] raises, while
  [set_max_stage_count] and [start_stage] return and change nothing. *)
Theorem end_stage_without_progress_raises
      (m : Machine State World) (count : Z) (stage : string) :
progress (self m) = None ->
end_stage m
= (Raise (AttributeError "'NoneType' object has no attribute 'update'"), m) /\
set_max_stage_count count m = (Return tt, m) /\
start_stage stage m = (Return tt, m).
Proof.
intros Hp.
unfold end_stage, set_max_stage_count, start_stage, bind, get_self, raise, ret.
cbn. rewrite Hp. auto.
Qed.
End SequentialFlowProperties.

(* ================================================================== *)
(** * [Flow.current_stage_prefix] *)
(* ================================================================== *)

Section StagePrefix.
Context {State World : Type}.

Lemma current_stage_prefix_nonneg (f : Flow State World) :
  0 <= ordinal f ->
  current_stage_prefix f
  = (Py.zfill (String.length (Py.str (max_stage f))) (Py.str (ordinal f))
     ++ "-")%string.
Proof.
  intros Hord. unfold current_stage_prefix, Py.len.
  rewrite PyFacts.format_0d_nonneg by assumption.
  rewrite Nat2Z.id. reflexivity.
Qed.

End StagePrefix.

(* ================================================================== *)
(** * The dictionary of the registry *)
(* ================================================================== *)

Section DictFacts.
Variable V : Type.
Implicit Types (d : Dict.t V) (k : string) (v : V).

Lemma get_set_same k v d : Dict.get k (Dict.set k v d) = Some v.
Proof.
  induction d as [|[k' v'] d IH]; cbn.
  - now rewrite String.eqb_refl.
  - destruct (String.eqb k k') eqn:E; cbn; rewrite ?E, ?String.eqb_refl; auto.
Qed.

Lemma get_set_other k k' v d :
  k <> k' -> Dict.get k (Dict.set k' v d) = Dict.get k d.
Proof.
  intros Hne. induction d as [|[k0 v0] d IH]; cbn.
  - apply String.eqb_neq in Hne. now rewrite Hne.
  - destruct (String.eqb k' k0) eqn:E; cbn.
    + apply String.eqb_eq in E. subst k0.
      apply String.eqb_neq in Hne. now rewrite Hne.
    + now rewrite IH.
Qed.

Lemma get_None k d : Dict.get k d = None <-> ~ In k (Dict.keys d).
Proof.
  induction d as [|[k' v'] d IH]; cbn.
  - tauto.
  - destruct (String.eqb k k') eqn:E.
    + apply String.eqb_eq in E. subst. split; [discriminate | tauto].
    + apply String.eqb_neq in E. rewrite IH. intuition congruence.
Qed.

Lemma keys_set_old k v d :
  In k (Dict.keys d) -> Dict.keys (Dict.set k v d) = Dict.keys d.
Proof.
  induction d as [|[k' v'] d IH]; cbn; [tauto|].
  destruct (String.eqb k k') eqn:E; cbn.
  - apply String.eqb_eq in E. now subst.
  - apply String.eqb_neq in E. intros [H|H]; [congruence|].
    fold (Dict.keys (Dict.set k v d)). now rewrite IH.
Qed.

Lemma keys_set_new k v d :
  ~ In k (Dict.keys d) -> Dict.keys (Dict.set k v d) = Dict.keys d ++ [k].
Proof.
  induction d as [|[k' v'] d IH]; cbn; [reflexivity|].
  destruct (String.eqb k k') eqn:E; cbn.
  - apply String.eqb_eq in E. subst. tauto.
  - intros H. fold (Dict.keys (Dict.set k v d)). rewrite IH; tauto.
Qed.

Lemma in_keys_set k k' v d :
  In k (Dict.keys (Dict.set k' v d)) <-> k = k' \/ In k (Dict.keys d).
Proof.
  destruct (in_dec string_dec k' (Dict.keys d)) as [Hin|Hnin].
  - rewrite keys_set_old by assumption. intuition congruence.
  - rewrite keys_set_new, in_app_iff by assumption. cbn. intuition congruence.
Qed.

Lemma NoDup_keys_set k v d :
  NoDup (Dict.keys d) -> NoDup (Dict.keys (Dict.set k v d)).
Proof.
  intros Hnd. destruct (in_dec string_dec k (Dict.keys d)) as [Hin|Hnin].
  - now rewrite keys_set_old.
  - rewrite keys_set_new by assumption.
    apply NoDup_app; [assumption | repeat constructor; cbn; tauto |].
    intros x Hx [<-|[]]. tauto.
Qed.
End DictFacts.

(* ================================================================== *)
(** * Properties of [FlowFactory] *)
(* ================================================================== *)

Section FlowFactoryProperties.
Context {State World : Type}.
Implicit Types (r : @FlowFactory.registry State World).

Lemma in_list_register_all flows :
  forall r name,
    In name (FlowFactory.list (FlowFactory.register_all flows r))
    <-> In name (map (@__name__ _ _) flows) \/ In name (FlowFactory.list r).
Proof.
  induction flows as [|T flows IH]; intros r name.
  - cbn. tauto.
  - change (FlowFactory.register_all (T :: flows) r)
      with (FlowFactory.register_all flows (FlowFactory.register T r)).
    rewrite IH. unfold FlowFactory.list, FlowFactory.register.
    rewrite in_keys_set. cbn. intuition congruence.
Qed.

Lemma NoDup_list_register_all flows :
  forall r,
    NoDup (FlowFactory.list r) ->
    NoDup (FlowFactory.list (FlowFactory.register_all flows r)).
Proof.
  induction flows as [|T flows IH]; intros r Hr; [assumption|].
  change (FlowFactory.register_all (T :: flows) r)
    with (FlowFactory.register_all flows (FlowFactory.register T r)).
  apply IH. apply NoDup_keys_set, Hr.
Qed.

(** C7. After [register(T)], [get] of the name of [T] returns [T]. [get] of
  a name that was never registered returns [None]. Registering a type
  under a name that is already a key replaces the entry and adds no key.
  After any sequence of registrations [list()] has no duplicate. *)
Theorem flow_factory_register_get_list :
(forall T r,
    FlowFactory.get (__name__ T) (FlowFactory.register T r) = Some T) /\
(forall flows name,
    ~ In name (map (@__name__ State World) flows) ->
    FlowFactory.get name
      (FlowFactory.register_all flows FlowFactory._registry) = None) /\
(forall T1 T2 r,
    __name__ T1 = __name__ T2 ->
    FlowFactory.get (__name__ T1)
      (FlowFactory.register T2 (FlowFactory.register T1 r)) = Some T2 /\
    FlowFactory.list (FlowFactory.register T2 (FlowFactory.register T1 r))
    = FlowFactory.list (FlowFactory.register T1 r)) /\
(forall flows,
    NoDup (FlowFactory.list
             (FlowFactory.register_all flows
                (@FlowFactory._registry State World)))).
Proof.
split; [|split; [|split]].
- intros T r. apply get_set_same.
- intros flows name Hnot. apply get_None.
  fold (FlowFactory.list (FlowFactory.register_all flows
                            (@FlowFactory._registry State World))).
  rewrite in_list_register_all. cbn. tauto.
- intros T1 T2 r Hname. unfold FlowFactory.get, FlowFactory.register,
    FlowFactory.list. rewrite Hname. split.
  + apply get_set_same.
  + apply keys_set_old, in_keys_set. auto.
- intros flows. apply NoDup_list_register_all. constructor.
Qed.
End FlowFactoryProperties.

(* ================================================================== *)
(** * The properties on the concrete flow *)
(* ================================================================== *)

Section Instances.
Import Sample.


(** The second of three steps lacks an input: a lineage of two states. *)
Lemma sequential_flow_handled_failure_witness :
  Steps (__class__ (self (machine_of [Synthesis; Placement; Floorplan])))
  = [Synthesis] ++ Placement :: [Floorplan] /\
  failure [Synthesis] 0%nat = None /\
  Step_start (instantiate Placement) [] (world_after [Synthesis] 0%nat)
  = (Raise (MissingInputError "def"), 2%nat) /\
  handled (MissingInputError "def") = true /\
  exists lineage m_end,
    start None (Some "t1") (machine_of [Synthesis; Placement; Floorplan])
    = (Return (false, lineage), m_end) /\
    List.length lineage = 2%nat /\
    instantiated (trace m_end) = ["Yosys.Synthesis"; "OpenROAD.Placement"].
Proof.
  repeat (split; [reflexivity|]).
  destruct (@sequential_flow_handled_failure _ _ _ _
              (machine_of [Synthesis; Placement; Floorplan]) None (Some "t1")
              [Synthesis] [Floorplan] Placement (MissingInputError "def") 2%nat
              eq_refl eq_refl eq_refl eq_refl)
    as (lineage & m_end & Hstart & _ & Hlen & Hinst & _).
  exists lineage, m_end. repeat split; assumption.
Defined.

(** The second of three steps raises an error of another kind. *)
Lemma sequential_flow_other_exceptions_propagate_witness :
  fst (start None (Some "t1") (machine_of [Synthesis; Broken; Floorplan]))
  = Raise (OtherError "ValueError" "bad").
Proof.
  apply (proj1 (@sequential_flow_other_exceptions_propagate _ _ _ _
                  (machine_of [Synthesis; Broken; Floorplan]) None (Some "t1"))
               [Synthesis] Broken [Floorplan] _ 2%nat);
    reflexivity.
Defined.



(** C5, counterexample. After a run of one step has returned, the run
    directory and the record of steps are not what [__init__] sets. *)
Lemma run_dir_and_steps_survive_start :
  exists r m_end,
    start None (Some "t1") (machine_of [Synthesis]) = (Return r, m_end) /\
    run_dir (self m_end) = Some "/design/runs/t1" /\
    steps (self m_end) = [Synthesis] /\
    ~ all_run_scoped_reset (self m_end).
Proof.
  eexists. eexists. split; [vm_compute; reflexivity|].
  split; [reflexivity|]. split; [reflexivity|].
  intros (_ & _ & H & _). discriminate H.
Defined.

Lemma start_resets_run_fields_witness :
  exists m_end,
    start None (Some "t1") (machine_of [Synthesis])
    = (Return (true, [0; 10]%nat), m_end) /\
    reset_by_start (self m_end).
Proof.
  eexists. split; [vm_compute; reflexivity|].
  refine (proj1 (@start_resets_run_fields _ _ _ _ (machine_of [Synthesis]) _
                   None (Some "t1") (true, [0; 10]%nat) _)).
  vm_compute. reflexivity.
Defined.

(** C8, counterexample. [start] has returned, no run is active, and
    [dir_for_step] returns a path under the directory of the last run. *)
Lemma dir_for_step_after_start_returned :
  exists r m_end,
    start None (Some "t1") (machine_of [Synthesis]) = (Return r, m_end) /\
    progress (self m_end) = None /\
    dir_for_step Floorplan m_end
    = (Return "/design/runs/t1/0-OpenROAD.Floorplan", m_end).
Proof.
  eexists. eexists. split; [vm_compute; reflexivity|].
  split; reflexivity.
Defined.

Lemma dir_for_step_spec_witness :
  dir_for_step Floorplan (machine_of [Synthesis])
  = (Raise (Exception ""), machine_of [Synthesis]).
Proof.
  apply (proj1 (proj2 (@dir_for_step_spec _ _ _ _
                         (machine_of [Synthesis]) Floorplan))).
  reflexivity.
Defined.

Lemma sequential_flow_no_steps_witness :
  Steps (__class__ (self (machine_of []))) = [] /\
  ordinal (self (machine_of [])) = 0 /\
  exists m_end,
    start (Some 4%nat) (Some "t1") (machine_of [])
    = (Return (true, [4%nat]), m_end).
Proof.
  split; [reflexivity|]. split; [reflexivity|].
  destruct (@sequential_flow_no_steps _ _ _ _ (machine_of []) (Some 4%nat)
              (Some "t1") eq_refl eq_refl)
    as (m_run & m_end & _ & Hstart & _).
  exists m_end. exact Hstart.
Defined.

Lemma end_stage_without_progress_raises_witness :
  progress (self (machine_of [Synthesis])) = None /\
  end_stage (machine_of [Synthesis])
  = (Raise (AttributeError "'NoneType' object has no attribute 'update'"),
     machine_of [Synthesis]).
Proof.
  split; [reflexivity|].
  apply (proj1 (@end_stage_without_progress_raises _ _
                  (machine_of [Synthesis]) 3 "Synthesis" eq_refl)).
Defined.


Lemma flow_factory_register_get_list_witness :
  __name__ Basic = __name__ Basic' /\
  FlowFactory.get "Basic"
    (FlowFactory.register Basic'
       (FlowFactory.register Basic FlowFactory._registry))
  = Some Basic' /\
  FlowFactory.get "Unregistered"
    (FlowFactory.register_all [Basic; Extended] FlowFactory._registry) = None.
Proof.
  split; [reflexivity|]. split.
  - apply (proj1 (proj2 (proj2 (@flow_factory_register_get_list nat nat)))
                 Basic Basic' FlowFactory._registry eq_refl).
  - apply (proj1 (proj2 (@flow_factory_register_get_list nat nat))
                 [Basic; Extended] "Unregistered").
    cbn. intros [H|[H|[]]]; discriminate H.
Defined.
End Instances.

(* ================================================================== *)
(** * Further properties of the loop and of [start] *)
(* ================================================================== *)

Arguments completions : simpl never.
Arguments errors : simpl never.
Arguments successes : simpl never.
Arguments stops : simpl never.
Arguments stage_numbers : simpl never.

Section MoreFlowFacts.
Context {State World : Type} {SC : StateClass State} {CK : Clock World}.

Lemma completions_app (a b : list (event State)) :
  completions (a ++ b) = completions a ++ completions b.
Proof. apply flat_map_app. Qed.

Lemma errors_app (a b : list (event State)) :
  errors (a ++ b) = errors a ++ errors b.
Proof. apply flat_map_app. Qed.

Lemma successes_app (a b : list (event State)) :
  successes (a ++ b) = successes a ++ successes b.
Proof. apply flat_map_app. Qed.

Lemma stops_app (a b : list (event State)) :
  stops (a ++ b) = (stops a + stops b)%nat.
Proof. unfold stops. now rewrite filter_app, length_app. Qed.

Lemma stage_numbers_cons ord n :
  stage_numbers ord (S n) = (ord + 1) :: stage_numbers (ord + 1) n.
Proof.
  unfold stage_numbers. cbn [seq map]. f_equal.
  rewrite <- seq_shift, map_map. apply map_ext. intros i. lia.
Qed.

(** The loop only adds events to the trace, all of them its own. *)
Lemma run_loop_trace (Steps : list (StepType State World)) :
  forall state_list (m : Machine State World) p t,
    progress (self m) = Some p ->
    task_id (self m) = Some t ->
    exists rest,
      trace (snd (run_loop Steps state_list m)) = trace m ++ rest /\
      forallb loop_event rest = true.
Proof.
  induction Steps as [|cls Steps IH]; intros sl m p t Hp Ht.
  - rewrite run_loop_nil. cbn. eexists. split; reflexivity.
  - rewrite (run_loop_cons _ _ _ _ Hp Ht).
    destruct (Step_start cls [] (world m)) as [[s|e] w'].
    + destruct (IH (sl ++ [s])
                   (leave_stage t (step_started cls w' (enter_stage cls t m))) p t)
        as (rest & Hrest & Hall); [exact Hp | exact Ht |].
      rewrite Hrest. cbn [trace leave_stage step_started enter_stage].
      rewrite <- !app_assoc. eexists. split; [reflexivity|].
      rewrite !forallb_app, Hall. reflexivity.
    + destruct e; cbn [snd report trace step_started enter_stage];
        rewrite <- ?app_assoc; eexists; (split; [reflexivity|]); reflexivity.
Qed.

(** The stages that the loop marks completed are those of the steps that
    returned; an error is reported for a handled exception only, and
    success when no step has raised. *)
Lemma run_loop_reports (Steps : list (StepType State World)) :
  forall state_list (m : Machine State World) p t,
    progress (self m) = Some p ->
    task_id (self m) = Some t ->
    let m' := snd (run_loop Steps state_list m) in
    completions (trace m')
    = completions (trace m)
      ++ stage_numbers (ordinal (self m))
                       (List.length (outputs Steps (world m))) /\
    List.length (errors (trace m'))
    = (List.length (errors (trace m))
       + match failure Steps (world m) with
         | Some e => if handled e then 1 else 0
         | None => 0
         end)%nat /\
    successes (trace m')
    = successes (trace m)
      ++ match failure Steps (world m) with
         | Some _ => []
         | None => ["Flow complete."%string]
         end.
Proof.
  induction Steps as [|cls Steps IH]; intros sl m p t Hp Ht.
  - rewrite run_loop_nil. cbn. unfold failure, outputs. cbn.
    rewrite completions_app, errors_app, successes_app. cbn.
    rewrite !app_nil_r. repeat split. lia.
  - cbv zeta. rewrite (run_loop_cons _ _ _ _ Hp Ht).
    unfold failure, outputs. cbn [executions]. unfold instantiate.
    destruct (Step_start cls [] (world m)) as [[s|e] w'].
    + specialize (IH (sl ++ [s])
                     (leave_stage t (step_started cls w' (enter_stage cls t m)))
                     p t Hp Ht).
      cbv zeta in IH. destruct IH as (Hc & He & Hs).
      rewrite Hc, He, Hs. unfold failure, outputs.
      cbn [trace world self ordinal leave_stage step_started enter_stage
           set_ordinal set_steps].
      destruct (executions Steps w') as [[outs w''] oe]. cbn [fst snd List.length].
      rewrite !completions_app, !errors_app, !successes_app. cbn.
      rewrite !app_nil_r, stage_numbers_cons, <- app_assoc.
      repeat split; rewrite ?length_app; cbn; lia.
    + cbn [fst snd List.length].
      destruct e; cbn [report handled snd trace step_started enter_stage];
        rewrite !completions_app, !errors_app, !successes_app;
        unfold stage_numbers, errors; cbn;
        rewrite ?app_nil_r; repeat split; rewrite ?length_app; cbn; lia.
Qed.

Lemma failure_outputs_lt (Steps : list (StepType State World)) :
  forall w e,
    failure Steps w = Some e ->
    (List.length (outputs Steps w) < List.length Steps)%nat.
Proof.
  unfold failure, outputs.
  induction Steps as [|cls Steps IH]; intros w e; cbn; [discriminate|].
  unfold instantiate. destruct (Step_start cls [] w) as [[s|e'] w'].
  - specialize (IH w' e). destruct (executions Steps w') as [[outs w''] oe].
    cbn in *. intros H. specialize (IH H). lia.
  - cbn. lia.
Qed.

Lemma started_le (Steps : list (StepType State World)) w :
  (started Steps w <= List.length Steps)%nat.
Proof.
  unfold started. destruct (failure Steps w) as [e|] eqn:Hf.
  - pose proof (failure_outputs_lt _ _ Hf). lia.
  - rewrite (all_succeed_outputs _ _ Hf). lia.
Qed.
End MoreFlowFacts.

Section MoreStartFacts.
Context {State World : Type} {SC : StateClass State} {CK : Clock World}.

Lemma stops_loop_events (rest : list (event State)) :
  forallb loop_event rest = true -> stops rest = O.
Proof.
  unfold stops. induction rest as [|e rest IH]; cbn; [reflexivity|].
  intros H. apply andb_prop in H. destruct H as [He Hr].
  destruct e; cbn in *; try discriminate; auto.
Qed.

(** The trace when [run] returns to [start], or raises. *)
Lemma start_until_run_returns_trace w tag (m : Machine State World) :
  exists rest,
    trace (snd (start_until_run_returns w tag m))
    = trace m
      ++ [Mkdirp (run_dir_for (self m) (run_tag tag (world m)));
          WriteFile (Py.path_join (run_dir_for (self m) (run_tag tag (world m)))
                                  "resolved.json")
                    (dumps (config (self m)));
          ProgressStart;
          ProgressAddTask (get_name (self m));
          UpdateTotal O (Z.of_nat (List.length (Steps (__class__ (self m)))));
          Log "Starting…"]
      ++ rest /\
    forallb loop_event rest = true.
Proof.
  rewrite start_until_run_returns_eq.
  destruct (run_loop_trace (Steps (__class__ (self m))) [state_or_new w]
              (loop_entered O (run_entered tag m)) (p := RichProgress) (t := O))
    as (rest & Hrest & Hall); [reflexivity | reflexivity |].
  exists rest. split; [|exact Hall].
  rewrite Hrest. cbn [trace loop_entered run_entered self __class__].
  rewrite <- !app_assoc. reflexivity.
Qed.

(** X2. In a result [(success, lineage)] of [start], the lineage begins with
    the initial state, has at most one state more than there are declared
    steps, and [success] holds exactly when it has that many. *)
Theorem success_iff_full_lineage
        (m : Machine State World) (w : option State) (tag : option string)
        (success : bool) (lineage : list State) :
  fst (start w tag m) = Return (success, lineage) ->
  hd_error lineage = Some (state_or_new w) /\
  (List.length lineage <= List.length (Steps (__class__ (self m))) + 1)%nat /\
  (success = true
   <-> List.length lineage = (List.length (Steps (__class__ (self m))) + 1)%nat).
Proof.
  destruct (start_correct w tag m) as (m_run & _ & _ & Hstart).
  rewrite Hstart. cbn [fst]. unfold loop_result.
  destruct (failure _ _) as [e|] eqn:Hf.
  - destruct (handled e); [|discriminate]. intros [= <- <-].
    pose proof (failure_outputs_lt _ _ Hf) as Hlt.
    cbn. repeat split; try lia; try discriminate.
  - intros [= <- <-]. pose proof (all_succeed_outputs _ _ Hf) as Hlen.
    cbn. repeat split; lia.
Qed.

(** X3. [progress.stop()] and the reset come after [run] with no [finally]:
    when a step raises an exception that [run] does not catch, [start]
    leaves the flow as the run had it (the progress display set and not
    stopped, the scratch directory and the toolbox set, the ordinal at the
    number of steps started) whereas a [start] that returns has stopped the
    display once. *)
Theorem unhandled_exception_skips_reset
        (m : Machine State World) (w : option State) (tag : option string)
        (e : exn) :
  failure (Steps (__class__ (self m))) (world m) = Some e ->
  handled e = false ->
  let m' := snd (start w tag m) in
  fst (start w tag m) = Raise e /\
  progress (self m') = Some RichProgress /\
  task_id (self m') = Some O /\
  tmp_dir (self m')
  = Some (Py.path_join (run_dir_for (self m) (run_tag tag (world m))) "tmp") /\
  toolbox (self m') <> None /\
  ordinal (self m')
  = ordinal (self m)
    + Z.of_nat (started (Steps (__class__ (self m))) (world m)) /\
  max_stage (self m') = Z.of_nat (List.length (Steps (__class__ (self m)))) /\
  stops (trace m') = stops (trace m).
Proof.
  intros Hf He m'. subst m'.
  destruct (start_correct w tag m) as (m_run & Hrun & Hpost & Hstart).
  destruct (start_until_run_returns_trace w tag m) as (rest & Hrest & Hall).
  rewrite Hrun in Hrest. cbn [snd] in Hrest.
  rewrite Hstart. unfold loop_result. rewrite Hf, He. cbn [fst snd].
  destruct Hpost. rewrite Hrest, !stops_app, (stops_loop_events _ Hall).
  repeat split; try assumption; try congruence.
  unfold stops at 2. cbn. lia.
Qed.

(** X4. When [start] returns, the display has been stopped exactly once
    more than before, whatever the steps did. *)
Theorem start_stops_progress_once
        (m : Machine State World) (w : option State) (tag : option string)
        (r : bool * list State) :
  fst (start w tag m) = Return r ->
  stops (trace (snd (start w tag m))) = S (stops (trace m)).
Proof.
  destruct (start_correct w tag m) as (m_run & Hrun & _ & Hstart).
  destruct (start_until_run_returns_trace w tag m) as (rest & Hrest & Hall).
  rewrite Hrun in Hrest. cbn [snd] in Hrest.
  rewrite Hstart. cbn [fst snd].
  destruct (loop_result _ _ _); [|discriminate]. intros _.
  cbn [run_left trace]. rewrite Hrest, !stops_app, (stops_loop_events _ Hall).
  unfold stops at 2 3. cbn. lia.
Qed.

(** X5. [start] creates the run directory and writes the configuration to
    [resolved.json] in it before anything else, and only once: the events
    that follow are those of the loop and the stop of the display. *)
Theorem start_prepares_run_directory_first
        (m : Machine State World) (w : option State) (tag : option string) :
  let rd := run_dir_for (self m) (run_tag tag (world m)) in
  exists rest,
    trace (snd (start w tag m))
    = trace m
      ++ [Mkdirp rd;
          WriteFile (Py.path_join rd "resolved.json") (dumps (config (self m)));
          ProgressStart;
          ProgressAddTask (get_name (self m));
          UpdateTotal O (Z.of_nat (List.length (Steps (__class__ (self m)))));
          Log "Starting…"]
      ++ rest /\
    forallb (fun e => match e with
                      | Mkdirp _ | WriteFile _ _ | ProgressStart
                      | ProgressAddTask _ | UpdateTotal _ _ | Log _ => false
                      | _ => true
                      end) rest = true.
Proof.
  intros rd. subst rd.
  destruct (start_until_run_returns_trace w tag m) as (rest & Hrest & Hall).
  assert (Hweak : forall l : list (event State),
             forallb loop_event l = true ->
             forallb (fun e => match e with
                               | Mkdirp _ | WriteFile _ _ | ProgressStart
                               | ProgressAddTask _ | UpdateTotal _ _ | Log _ => false
                               | _ => true
                               end) l = true).
  { induction l as [|x l IH]; cbn; [reflexivity|].
    intros H. apply andb_prop in H. destruct H as [Hx Hl].
    rewrite (IH Hl). destruct x; cbn in *; try discriminate; reflexivity. }
  rewrite start_eq.
  destruct (start_until_run_returns w tag m) as [[r|e] m_run]; cbn [snd] in *.
  - exists (rest ++ [ProgressStop]). cbn [run_left trace]. split.
    + rewrite Hrest, <- !app_assoc. reflexivity.
    + rewrite forallb_app, (Hweak _ Hall). reflexivity.
  - exists rest. split; [exact Hrest | exact (Hweak _ Hall)].
Qed.

(** X6. The stages marked completed on the display are those of the steps
    that returned, numbered from the ordinal at entry: the stage of a step
    that raises is never marked completed. One error is reported when the
    exception is caught and none otherwise, and ["Flow complete."] is
    announced exactly when no step has raised. *)
Theorem completed_stages_are_those_that_returned
        (m : Machine State World) (w : option State) (tag : option string) :
  let declared := Steps (__class__ (self m)) in
  let m' := snd (start w tag m) in
  completions (trace m')
  = completions (trace m)
    ++ stage_numbers (ordinal (self m))
                     (List.length (outputs declared (world m))) /\
  List.length (errors (trace m'))
  = (List.length (errors (trace m))
     + match failure declared (world m) with
       | Some e => if handled e then 1 else 0
       | None => 0
       end)%nat /\
  successes (trace m')
  = successes (trace m)
    ++ match failure declared (world m) with
       | Some _ => []
       | None => ["Flow complete."%string]
       end.
Proof.
  intros declared m'. subst declared m'.
  pose proof (run_loop_reports (Steps (__class__ (self m))) [state_or_new w]
                (loop_entered O (run_entered tag m)) (p := RichProgress) (t := O)
                eq_refl eq_refl) as Hrep.
  cbv zeta in Hrep. rewrite <- start_until_run_returns_eq in Hrep.
  cbn [world self ordinal trace loop_entered run_entered set_max_stage] in Hrep.
  rewrite !completions_app, !errors_app, !successes_app in Hrep.
  unfold completions at 2 3, errors at 2 3, successes at 2 3 in Hrep.
  cbn in Hrep. rewrite !app_nil_r in Hrep.
  rewrite start_eq.
  destruct (start_until_run_returns w tag m) as [[r|e] m_run]; cbn [snd] in *.
  - cbn [run_left trace].
    rewrite completions_app, errors_app, successes_app.
    unfold completions at 2, errors at 2, successes at 2. cbn.
    rewrite !app_nil_r. exact Hrep.
  - exact Hrep.
Qed.
End MoreStartFacts.

Section RunAlone.
Context {State World : Type} {SC : StateClass State} {CK : Clock World}.

(** X7. [run] called without [start], on a flow with no progress display:
    no stage is counted, and a first step that returns is followed by an
    [AttributeError] from [end_stage], so that no second step is started;
    with no declared step, or when the first step raises an exception that
    is caught, [run] returns as it does under [start]. *)
Theorem run_without_start
        (m : Machine State World) (w : option State) :
  progress (self m) = None ->
  (Steps (__class__ (self m)) = [] ->
   fst (run w m) = Return (true, [state_or_new w])) /\
  (forall cls rest s w',
      Steps (__class__ (self m)) = cls :: rest ->
      Step_start (instantiate cls) [] (world m) = (Return s, w') ->
      fst (run w m)
      = Raise (AttributeError "'NoneType' object has no attribute 'update'") /\
      steps (self (snd (run w m))) = steps (self m) ++ [instantiate cls] /\
      start_calls (trace (snd (run w m)))
      = start_calls (trace m) ++ [(Step_id cls, [])]) /\
  (forall cls rest e w',
      Steps (__class__ (self m)) = cls :: rest ->
      Step_start (instantiate cls) [] (world m) = (Raise e, w') ->
      handled e = true ->
      fst (run w m) = Return (false, [state_or_new w])) /\
  ordinal (self (snd (run w m))) = ordinal (self m) /\
  max_stage (self (snd (run w m))) = max_stage (self m).
Proof.
  destruct m as [f w0 tr].
  destruct f as [c cf st dd ord ms ti pr rd td tb]. cbn. intros ->.
  unfold run, set_max_stage_count, bind, get_self, modify_self, emit, ret.
  cbn. destruct c as [nm dn declared]. cbn.
  destruct declared as [|cls rest].
  - cbn. repeat split; intros; discriminate.
  - cbn [run_loop]. unfold bind, emit, get_self, modify_self, start_stage,
      attempt, call_start, end_stage, ret, raise, instantiate. cbn.
    destruct (Step_start cls [] w0) as [[s|e] w'] eqn:E; cbn.
    + split; [discriminate|]. split.
      * intros cls' rest' s' w'' [= <- <-] _. split; [reflexivity|].
        split; [reflexivity|].
        rewrite !start_calls_app. unfold start_calls at 2 3 4. cbn.
        rewrite !app_nil_r. reflexivity.
      * split; [|split; reflexivity].
        intros cls' rest' e w'' [= <- <-] H. rewrite E in H. discriminate H.
    + split; [discriminate|]. split.
      * intros cls' rest' s w'' [= <- <-] H. rewrite E in H. discriminate H.
      * destruct e; cbn; (split; [|split; reflexivity]);
          intros cls' rest' e' w'' [= <- <-] H He; rewrite E in H;
          injection H as <- <-; try discriminate He; reflexivity.
Qed.
End RunAlone.

Section Reuse.
Context {State World : Type} {SC : StateClass State} {CK : Clock World}.

(** X8. A flow whose [start] has returned can be started again: the second
    run numbers its stages from 1, works under the run directory of its own
    tag in the same design directory, and adds its steps to the record
    after those of the first run. *)
Theorem flow_can_be_started_again
        (m m1 : Machine State World) (w1 w2 : option State)
        (tag1 tag2 : option string) (r1 : bool * list State) :
  start w1 tag1 m = (Return r1, m1) ->
  let declared := Steps (__class__ (self m)) in
  let m2 := snd (start_until_run_returns w2 tag2 m1) in
  run_dir (self m2) = Some (run_dir_for (self m) (run_tag tag2 (world m1))) /\
  ordinal (self m2) = Z.of_nat (started declared (world m1)) /\
  descriptions (trace m2)
  = descriptions (trace m1)
    ++ stage_descriptions (get_name (self m)) 0
         (firstn (started declared (world m1)) declared) /\
  steps (self m2)
  = steps (self m)
    ++ firstn (started declared (world m)) declared
    ++ firstn (started declared (world m1)) declared.
Proof.
  intros Hfirst declared m2. subst declared m2.
  destruct (start_correct w1 tag1 m) as (m_run & _ & Hpost & Hstart).
  rewrite Hstart in Hfirst.
  destruct (loop_result _ _ _); [|discriminate].
  injection Hfirst as _ <-.
  destruct (start_correct w2 tag2 (run_left m_run)) as (m_run2 & Hrun2 & Hpost2 & _).
  rewrite Hrun2. cbn [snd].
  destruct Hpost, Hpost2.
  cbn [run_left self world trace __class__ design_dir ordinal steps] in *.
  unfold run_dir_for, get_name in *.
  cbn [run_left self world trace __class__ design_dir ordinal steps] in *.
  rewrite rp_class0 in *. rewrite rp_design_dir0 in *.
  repeat split.
  - assumption.
  - lia.
  - rewrite rp_descriptions1, !descriptions_app.
    unfold descriptions. cbn. rewrite !app_nil_r. reflexivity.
  - rewrite rp_steps1, rp_steps0, <- app_assoc. reflexivity.
Qed.

(** X9. In a [start] entered with the ordinal 0, the ordinal has not gone
    beyond the expected stage count when [run] returns, so that the prefix
    of a stage is as wide as the count, plus the ["-"]. *)
Theorem ordinal_within_stage_count
        (m : Machine State World) (w : option State) (tag : option string) :
  ordinal (self m) = 0 ->
  let m_run := snd (start_until_run_returns w tag m) in
  0 <= ordinal (self m_run) <= max_stage (self m_run) /\
  String.length (current_stage_prefix (self m_run))
  = S (String.length (Py.str (max_stage (self m_run)))).
Proof.
  intros Hord m_run. subst m_run.
  destruct (start_correct w tag m) as (m_run & Hrun & Hpost & _).
  rewrite Hrun. cbn [snd]. destruct Hpost.
  pose proof (started_le (Steps (__class__ (self m))) (world m)) as Hle.
  assert (Hrange : 0 <= ordinal (self m_run) <= max_stage (self m_run)) by lia.
  split; [exact Hrange|].
  rewrite current_stage_prefix_nonneg by lia.
  rewrite PyFacts.length_append, PyFacts.length_zfill.
  pose proof (@PyFacts.str_length_mono (ordinal (self m_run))
                (max_stage (self m_run)) Hrange).
  cbn. lia.
Qed.
End Reuse.

(* ================================================================== *)
(** * Stage prefixes and step directories *)
(* ================================================================== *)

Section Directories.
Context {State World : Type}.

Lemma dec_value_zeros (k : nat) (s : string) :
  Py.dec_value (Py.zeros k ++ s) = Py.dec_value s.
Proof.
  unfold Py.dec_value. induction k as [|k IH]; [reflexivity|].
  cbn [Py.zeros String.append Py.dec_value_from]. exact IH.
Qed.

Lemma append_inv_head (s a b : string) :
  (s ++ a = s ++ b)%string -> a = b.
Proof.
  induction s as [|c s IH]; cbn [String.append]; [auto|].
  intros [= H]. auto.
Qed.

Lemma append_inv_tail (t : string) :
  forall a b : string, (a ++ t = b ++ t)%string -> a = b.
Proof.
  induction a as [|x a IH]; intros [|y b] H.
  - reflexivity.
  - apply (f_equal String.length) in H.
    rewrite !PyFacts.length_append in H. cbn in H. lia.
  - apply (f_equal String.length) in H.
    rewrite !PyFacts.length_append in H. cbn in H. lia.
  - cbn [String.append] in H. injection H as -> H. f_equal. auto.
Qed.

(** The digits of a number begin with a digit. *)
Lemma str_digits_head (fuel : nat) :
  forall (n : Z) (acc : string),
    0 <= n ->
    (1 <= fuel)%nat ->
    exists d rest,
      0 <= d < 10 /\
      Py.str_digits fuel n acc = String (Py.digit_char d) rest.
Proof.
  induction fuel as [|fuel IH]; intros n acc Hn Hfuel; [lia|].
  assert (Hmod : 0 <= n mod 10 < 10) by (apply Z.mod_pos_bound; lia).
  cbn [Py.str_digits]. destruct (n / 10 =? 0); [eauto|].
  destruct fuel as [|fuel'].
  - cbn [Py.str_digits]. eauto.
  - apply IH; [apply Z.div_pos; lia | lia].
Qed.

Lemma digit_char_not_sep (d : Z) (rest : string) :
  0 <= d < 10 -> Py.starts_with_sep (String (Py.digit_char d) rest) = false.
Proof.
  intros Hd.
  assert (H : d = 0 \/ d = 1 \/ d = 2 \/ d = 3 \/ d = 4 \/ d = 5 \/ d = 6
              \/ d = 7 \/ d = 8 \/ d = 9) by lia.
  repeat (destruct H as [-> | H]; [reflexivity|]). subst d. reflexivity.
Qed.

Lemma current_stage_prefix_not_absolute (f : Flow State World) (s : string) :
  0 <= ordinal f ->
  Py.starts_with_sep (current_stage_prefix f ++ s) = false.
Proof.
  intros Hord. rewrite current_stage_prefix_nonneg by assumption.
  unfold Py.zfill.
  destruct (String.length (Py.str (max_stage f)) - String.length (Py.str (ordinal f)))%nat
    as [|k]; cbn [Py.zeros String.append]; [|reflexivity].
  rewrite PyFacts.str_of_nonneg by assumption. unfold Py.str_nonneg.
  destruct (@str_digits_head (Py.str_fuel (ordinal f)) (ordinal f) "" Hord)
    as (d & rest & Hd & ->); [unfold Py.str_fuel; lia|].
  cbn [String.append]. apply digit_char_not_sep, Hd.
Qed.

(** The prefix read as a number: the ordinal, followed by the ["-"]. *)
Lemma dec_value_current_stage_prefix (f : Flow State World) :
  0 <= ordinal f ->
  Py.dec_value (current_stage_prefix f) = 10 * ordinal f - 3.
Proof.
  intros Hf. rewrite current_stage_prefix_nonneg by assumption.
  unfold Py.dec_value. rewrite PyFacts.dec_value_from_snoc.
  fold (Py.dec_value (Py.zfill (String.length (Py.str (max_stage f)))
                               (Py.str (ordinal f)))).
  unfold Py.zfill. rewrite dec_value_zeros.
  rewrite PyFacts.str_of_nonneg by assumption.
  destruct (PyFacts.str_nonneg_spec Hf) as (-> & _). reflexivity.
Qed.

(** X10. The prefix determines the ordinal: two stages of different
    ordinals have different prefixes, whatever the expected stage counts. *)
Theorem current_stage_prefix_injective (f1 f2 : Flow State World) :
  0 <= ordinal f1 ->
  0 <= ordinal f2 ->
  current_stage_prefix f1 = current_stage_prefix f2 ->
  ordinal f1 = ordinal f2.
Proof.
  intros H1 H2 Heq.
  apply (f_equal Py.dec_value) in Heq.
  rewrite !dec_value_current_stage_prefix in Heq by assumption.
  lia.
Qed.

(** X11. In a run, the directory of a step lies under the run directory,
    whatever the identifier of the step, and the directories that one step
    gets at two ordinals are the same only if the ordinals are. *)
Theorem dir_for_step_under_run_dir
        (m1 m2 : Machine State World) (step : Step State World) (d : string) :
  run_dir (self m1) = Some d ->
  run_dir (self m2) = Some d ->
  0 <= ordinal (self m1) ->
  0 <= ordinal (self m2) ->
  (exists rest, fst (dir_for_step step m1) = Return (d ++ rest)%string) /\
  (fst (dir_for_step step m1) = fst (dir_for_step step m2) ->
   ordinal (self m1) = ordinal (self m2)).
Proof.
  intros Hd1 Hd2 Ho1 Ho2.
  unfold dir_for_step, bind, get_self, ret. cbn. rewrite Hd1, Hd2. cbn.
  unfold Py.path_join.
  rewrite !current_stage_prefix_not_absolute by assumption.
  split.
  - destruct (_ || _)%bool; eexists; reflexivity.
  - intros [= H]. destruct (_ || _)%bool.
    + apply (append_inv_head d) in H.
      apply (append_inv_tail (Step_id step)) in H.
      apply (f_equal Py.dec_value) in H.
      rewrite !dec_value_current_stage_prefix in H by assumption. lia.
    + apply (append_inv_head d) in H. apply (append_inv_head "/") in H.
      apply (append_inv_tail (Step_id step)) in H.
      apply (f_equal Py.dec_value) in H.
      rewrite !dec_value_current_stage_prefix in H by assumption. lia.
Qed.
End Directories.

(* ================================================================== *)
(** * Further properties of [FlowFactory] *)
(* ================================================================== *)

Section MoreFlowFactory.
Context {State World : Type}.

Lemma register_all_snoc (flows : list (FlowType State World)) T r :
  FlowFactory.register_all (flows ++ [T]) r
  = FlowFactory.register T (FlowFactory.register_all flows r).
Proof. unfold FlowFactory.register_all. now rewrite fold_left_app. Qed.

Lemma get_register (T : FlowType State World)
      (r : @FlowFactory.registry State World) (name : string) :
  FlowFactory.get name (FlowFactory.register T r)
  = if String.eqb name (__name__ T) then Some T else FlowFactory.get name r.
Proof.
  unfold FlowFactory.get, FlowFactory.register.
  destruct (String.eqb name (__name__ T)) eqn:E.
  - apply String.eqb_eq in E. subst name. apply get_set_same.
  - apply String.eqb_neq in E. now apply get_set_other.
Qed.

(** X12. After any registrations, [get(name)] returns the flow type that
    was registered last under that name, and [None] when there is none. *)
Theorem flow_factory_get_last_registered
        (flows : list (FlowType State World)) (name : string) :
  FlowFactory.get name (FlowFactory.register_all flows FlowFactory._registry)
  = last_registered name flows.
Proof.
  unfold last_registered.
  induction flows as [|T flows IH] using rev_ind; [reflexivity|].
  rewrite register_all_snoc, get_register, rev_app_distr.
  cbn [rev app find]. rewrite IH. reflexivity.
Qed.

(** X13. A flow type that [get(name)] returns has been registered, and
    [name] is its Python name. *)
Theorem flow_factory_get_sound
        (flows : list (FlowType State World)) (name : string)
        (T : FlowType State World) :
  FlowFactory.get name (FlowFactory.register_all flows FlowFactory._registry)
  = Some T ->
  In T flows /\ __name__ T = name.
Proof.
  induction flows as [|T' flows IH] using rev_ind; [discriminate|].
  rewrite register_all_snoc, get_register, in_app_iff.
  destruct (String.eqb name (__name__ T')) eqn:E.
  - apply String.eqb_eq in E. intros [= ->]. cbn. auto.
  - intros H. destruct (IH H) as [Hin Hname]. auto.
Qed.

(** X14. [list()] holds exactly the names of the flow types registered,
    and [get] finds a flow type exactly for these names. *)
Theorem flow_factory_list_complete
        (flows : list (FlowType State World)) (name : string) :
  let r := FlowFactory.register_all flows FlowFactory._registry in
  (In name (FlowFactory.list r) <-> In name (map (@__name__ _ _) flows)) /\
  (FlowFactory.get name r <> None <-> In name (FlowFactory.list r)).
Proof.
  intros r. subst r. split.
  - rewrite in_list_register_all. cbn. tauto.
  - unfold FlowFactory.get, FlowFactory.list.
    pose proof (get_None name
                  (FlowFactory.register_all flows
                     (@FlowFactory._registry State World))) as H.
    destruct (in_dec string_dec name
                (Dict.keys (FlowFactory.register_all flows
                              (@FlowFactory._registry State World)))); tauto.
Qed.

(** X15. Registering a flow type changes what [get] returns for no other
    name, and registering it a second time changes nothing. *)
Theorem flow_factory_register_frame
        (T : FlowType State World) (r : @FlowFactory.registry State World) :
  (forall name,
      name <> __name__ T ->
      FlowFactory.get name (FlowFactory.register T r) = FlowFactory.get name r) /\
  FlowFactory.register T (FlowFactory.register T r) = FlowFactory.register T r.
Proof.
  split.
  - intros name Hne. now apply get_set_other.
  - unfold FlowFactory.register.
    induction r as [|[k v] r IH]; cbn.
    + now rewrite String.eqb_refl.
    + destruct (String.eqb (__name__ T) k) eqn:E; cbn.
      * now rewrite String.eqb_refl.
      * rewrite E. f_equal. exact IH.
Qed.
End MoreFlowFactory.

(* ================================================================== *)
(** * The further properties on the concrete flow *)
(* ================================================================== *)

Section MoreInstances.
Import Sample.

Lemma success_iff_full_lineage_witness :
  fst (start None (Some "t1") (machine_of [Synthesis; Routing; Floorplan]))
  = Return (false, [0; 10]%nat) /\
  (List.length [0; 10]%nat <= 3 + 1)%nat.
Proof.
  split; [reflexivity|].
  apply (proj1 (proj2 (@success_iff_full_lineage nat nat nat_state nat_clock
                         (machine_of [Synthesis; Routing; Floorplan]) None
                         (Some "t1") false [0; 10]%nat
                         ltac:(vm_compute; reflexivity)))).
Defined.

Lemma unhandled_exception_skips_reset_witness :
  failure [Synthesis; Broken] 0%nat = Some (OtherError "ValueError" "bad") /\
  progress (self (snd (start None (Some "t1") (machine_of [Synthesis; Broken]))))
  = Some RichProgress.
Proof.
  split; [reflexivity|].
  apply (proj1 (proj2 (@unhandled_exception_skips_reset nat nat nat_state nat_clock
                         (machine_of [Synthesis; Broken]) None (Some "t1")
                         (OtherError "ValueError" "bad")
                         ltac:(vm_compute; reflexivity) eq_refl))).
Defined.

Lemma start_stops_progress_once_witness :
  fst (start None (Some "t1") (machine_of [Synthesis; Placement]))
  = Return (false, [0; 10]%nat) /\
  stops (trace (snd (start None (Some "t1") (machine_of [Synthesis; Placement]))))
  = 1%nat.
Proof.
  split; [reflexivity|].
  apply (@start_stops_progress_once nat nat nat_state nat_clock
           (machine_of [Synthesis; Placement]) None (Some "t1")
           (false, [0; 10]%nat) ltac:(vm_compute; reflexivity)).
Defined.

Lemma run_without_start_witness :
  progress (self (machine_of [Synthesis; Floorplan])) = None /\
  fst (run None (machine_of [Synthesis; Floorplan]))
  = Raise (AttributeError "'NoneType' object has no attribute 'update'").
Proof.
  split; [reflexivity|].
  apply (proj1 (proj2 (@run_without_start nat nat nat_state
                         (machine_of [Synthesis; Floorplan]) None eq_refl))
               Synthesis [Floorplan] 10%nat 1%nat eq_refl eq_refl).
Defined.

Lemma flow_can_be_started_again_witness :
  exists m1,
    start None (Some "t1") (machine_of [Synthesis; Placement])
    = (Return (false, [0; 10]%nat), m1) /\
    run_dir (self (snd (start_until_run_returns None (Some "t2") m1)))
    = Some "/design/runs/t2".
Proof.
  eexists. split; [vm_compute; reflexivity|].
  refine (proj1 (@flow_can_be_started_again nat nat nat_state nat_clock
                   (machine_of [Synthesis; Placement]) _ None None
                   (Some "t1") (Some "t2") (false, [0; 10]%nat) _)).
  vm_compute. reflexivity.
Defined.

Lemma ordinal_within_stage_count_witness :
  ordinal (self (machine_of [Synthesis; Placement; Floorplan])) = 0 /\
  ordinal (self (snd (start_until_run_returns None (Some "t1")
                        (machine_of [Synthesis; Placement; Floorplan]))))
  <= 3.
Proof.
  split; [reflexivity|].
  apply (proj1 (@ordinal_within_stage_count nat nat nat_state nat_clock
                  (machine_of [Synthesis; Placement; Floorplan]) None
                  (Some "t1") eq_refl)).
Defined.

Lemma current_stage_prefix_injective_witness :
  current_stage_prefix (set_max_stage 12 (set_ordinal 3 (flow_of [Synthesis])))
  = current_stage_prefix (set_max_stage 10 (set_ordinal 3 (flow_of [Floorplan])))
  /\ 3 = 3.
Proof.
  split; [reflexivity|].
  apply (@current_stage_prefix_injective _ _
           (set_max_stage 12 (set_ordinal 3 (flow_of [Synthesis])))
           (set_max_stage 10 (set_ordinal 3 (flow_of [Floorplan]))));
    [cbn; lia | cbn; lia | reflexivity].
Defined.

Lemma dir_for_step_under_run_dir_witness :
  exists rest,
    fst (dir_for_step Floorplan
           (mkMachine (set_run_dir (Some "/design/runs/t1")
                         (set_max_stage 12 (set_ordinal 3 (flow_of [Synthesis]))))
                      0%nat []))
    = Return ("/design/runs/t1" ++ rest)%string.
Proof.
  apply (proj1 (@dir_for_step_under_run_dir _ _
                  (mkMachine (set_run_dir (Some "/design/runs/t1")
                                (set_max_stage 12 (set_ordinal 3 (flow_of [Synthesis]))))
                             0%nat [])
                  (mkMachine (set_run_dir (Some "/design/runs/t1")
                                (set_max_stage 12 (set_ordinal 3 (flow_of [Synthesis]))))
                             0%nat [])
                  Floorplan "/design/runs/t1" eq_refl eq_refl
                  ltac:(cbn; lia) ltac:(cbn; lia))).
Defined.

Lemma flow_factory_get_sound_witness :
  FlowFactory.get "Basic"
    (FlowFactory.register_all [Basic; Extended; Basic'] FlowFactory._registry)
  = Some Basic' /\
  __name__ Basic' = "Basic".
Proof.
  split; [reflexivity|].
  apply (proj2 (@flow_factory_get_sound _ _ [Basic; Extended; Basic'] "Basic"
                  Basic' eq_refl)).
Defined.
End MoreInstances.
